(** * Build-log query routes of cedar (rest/buildlogger_routes.go)

    A shallow embedding of the request handlers of the buildlogger REST
    routes: parsing of the query string into a handler, the options each
    handler hands to the data connector, the group time-range inference,
    the by-test-name metadata merge and the pagination links of a payload
    response.  The data connector is an interface of which the handlers
    only see the answers; a handler is therefore a small program over
    connector calls, run against an arbitrary connector. *)

From Stdlib Require Import ZArith Ascii Permutation.
From stdpp Require Import gmap strings list.

Local Open Scope string_scope.
Local Open Scope Z_scope.

#[local] Set Warnings "-register-all".

(** net/http and time constants the handlers name. *)
Definition StatusNotFound : Z := 404.
Definition RFC3339 : string := "2006-01-02T15:04:05Z07:00".

(** ** Instants and time ranges *)

(** A [time.Time] as the handlers use it: an instant, counted in
    nanoseconds from the zero instant (January 1, year 1, 00:00:00 UTC),
    and the offset of the location it is presented in, in seconds east of
    UTC.  Instants before the zero instant are negative.  Values that come
    from the query string or from the store carry no monotonic clock
    reading. *)
Record Time : Type := mkTime { instant : Z; offset : Z }.

(** [time.Time{}] *)
Definition zeroTime : Time := mkTime 0 0.

Definition Time_IsZero (t : Time) : bool := instant t =? 0.
Definition Time_After (t u : Time) : bool := instant u <? instant t.
Definition Time_Before (t u : Time) : bool := instant t <? instant u.

(** The util package: [util.TimeRange]. *)
Module util.

Record TimeRange : Type := mkTimeRange { StartAt : Time; EndAt : Time }.

(** [util.TimeRange{}] *)
Definition zero : TimeRange := mkTimeRange zeroTime zeroTime.

(** Modelled from the spec: [TimeRange.IsZero] is declared in the util
    package, outside rest/buildlogger_routes.go; a range is zero
    when both of its bounds are the zero instant. *)
Definition IsZero (tr : TimeRange) : bool :=
  Time_IsZero (EndAt tr) && Time_IsZero (StartAt tr).

Definition set_StartAt (tr : TimeRange) (t : Time) : TimeRange :=
  mkTimeRange t (EndAt tr).

Definition set_EndAt (tr : TimeRange) (t : Time) : TimeRange :=
  mkTimeRange (StartAt tr) t.

End util.

(** ** Errors *)

Inductive numErr : Type := ErrSyntax | ErrRange.

(** The error values that reach the handlers, by dynamic type:
    [gimlet.ErrorResponse], [*strconv.NumError], a plain message
    ([errors.New], [errors.Errorf]), an error wrapped with a message
    ([errors.Wrap], [errors.Wrapf]) and the error a catcher resolves to,
    which joins the messages of the errors it collected. *)
Inductive error : Type :=
| ErrorResponse (StatusCode : Z) (Message : string)
| NumError (Func Num : string) (Err : numErr)
| errorString (msg : string)
| withMessage (cause : error) (msg : string)
| catcherError (errs : list error).

(** [err.(gimlet.ErrorResponse)]: the value and whether the assertion
    holds; the zero value when it does not (also for a nil error). *)
Definition asErrorResponse (err : option error) : (Z * string) * bool :=
  match err with
  | Some (ErrorResponse code msg) => ((code, msg), true)
  | _ => ((0, ""), false)
  end.

(** ** grip's basic catcher *)

Definition catcher : Type := list error.

Definition NewBasicCatcher : catcher := [].

(** [catcher.Add]: a nil error is dropped. *)
Definition catcher_Add (c : catcher) (err : option error) : catcher :=
  match err with
  | None => c
  | Some e => (c ++ [e])%list
  end.

(** [catcher.Resolve] *)
Definition catcher_Resolve (c : catcher) : option error :=
  match c with
  | [] => None
  | _ => Some (catcherError c)
  end.

(** ** strconv.Atoi, for a 64-bit [int] *)

Definition digit (ch : ascii) : option Z :=
  let n := Z.of_N (N_of_ascii ch) in
  if (48 <=? n) && (n <=? 57) then Some (n - 48) else None.

(** The digit loop of [ParseUint] in base 10: a byte that is no digit is a
    syntax error, an overflow of 64 bits a range error, whichever comes
    first. *)
Fixpoint parseUint (s : string) (n : Z) : numErr + Z :=
  match s with
  | EmptyString => inr n
  | String ch rest =>
      match digit ch with
      | None => inl ErrSyntax
      | Some d =>
          let n1 := n * 10 + d in
          if 2 ^ 64 - 1 <? n1 then inl ErrRange else parseUint rest n1
      end
  end.

Definition isSign (ch : ascii) : bool :=
  bool_decide (ch = "+"%char) || bool_decide (ch = "-"%char).

Definition Atoi (s : string) : Z * option error :=
  match s with
  | EmptyString => (0, Some (NumError "Atoi" s ErrSyntax))
  | String ch rest =>
      let neg := bool_decide (ch = "-"%char) in
      let body := if isSign ch then rest else s in
      match body with
      | EmptyString => (0, Some (NumError "Atoi" s ErrSyntax))
      | _ =>
          match parseUint body 0 with
          | inl ErrSyntax => (0, Some (NumError "Atoi" s ErrSyntax))
          | inl ErrRange =>
              (if neg then - 2 ^ 63 else 2 ^ 63 - 1,
               Some (NumError "Atoi" s ErrRange))
          | inr un =>
              if negb neg && (2 ^ 63 <=? un) then
                (2 ^ 63 - 1, Some (NumError "Atoi" s ErrRange))
              else if neg && (2 ^ 63 <? un) then
                (- 2 ^ 63, Some (NumError "Atoi" s ErrRange))
              else
                (if neg then - un else un, None)
          end
      end
  end.

(** ** The request: path variables and query values *)

(** [url.Values] is a map from a key to the values given for it, in the
    order of the query string. *)
Abbreviation Values := (gmap string (list string)).

(** [vals[key]]: no values for a key that is absent. *)
Definition Values_index (vals : Values) (key : string) : list string :=
  default [] (vals !! key).

(** [vals.Get(key)]: the first value, the empty string without one. *)
Definition Values_Get (vals : Values) (key : string) : string :=
  match Values_index vals key with
  | [] => ""
  | v :: _ => v
  end.

Record Request : Type := mkRequest {
  Vars : gmap string string;   (* gimlet.GetVars(r) *)
  Query : Values               (* r.URL.Query() *)
}.

Definition GetVar (r : Request) (name : string) : string :=
  default "" (Vars r !! name).

(** ** The data connector *)

(** [model.APILog], with the fields the handlers read. *)
Module model.

Record APILog : Type := mkAPILog {
  ID : string;
  CreatedAt : Time;
  CompletedAt : Time
}.

End model.

(** [data.BuildloggerOptions], with the fields the handlers set; a field a
    handler leaves out of its literal has the zero value of its type. *)
Module data.

Record BuildloggerOptions : Type := mkOptions {
  ID : string;
  TaskID : string;
  TestName : string;
  Execution : Z;
  ProcessName : string;
  Tags : list string;
  TimeRange : util.TimeRange;
  PrintTime : bool;
  PrintPriority : bool;
  Limit : Z;
  Tail : Z;
  SoftSizeLimit : Z
}.

Definition set_TestName (o : BuildloggerOptions) (v : string) :=
  mkOptions (ID o) (TaskID o) v (Execution o) (ProcessName o) (Tags o)
    (TimeRange o) (PrintTime o) (PrintPriority o) (Limit o) (Tail o)
    (SoftSizeLimit o).

Definition set_TimeRange (o : BuildloggerOptions) (v : util.TimeRange) :=
  mkOptions (ID o) (TaskID o) (TestName o) (Execution o) (ProcessName o)
    (Tags o) v (PrintTime o) (PrintPriority o) (Limit o) (Tail o)
    (SoftSizeLimit o).

Definition set_SoftSizeLimit (o : BuildloggerOptions) (v : Z) :=
  mkOptions (ID o) (TaskID o) (TestName o) (Execution o) (ProcessName o)
    (Tags o) (TimeRange o) (PrintTime o) (PrintPriority o) (Limit o) (Tail o)
    v.

(** The methods of [data.Connector] that return a log payload, and the one
    that returns metadata, each with the options it is called with. *)
Inductive LogsQuery : Type :=
| FindLogByID (opts : BuildloggerOptions)
| FindLogsByTaskID (opts : BuildloggerOptions)
| FindLogsByTestName (opts : BuildloggerOptions)
| FindGroupedLogs (opts : BuildloggerOptions).

Inductive MetaQuery : Type :=
| FindLogMetadataByTestName (opts : BuildloggerOptions).

(** What a payload method returns: [(data, next, paginated, err)]. *)
Record LogsResult : Type := mkLogsResult {
  logData : list Byte.byte;
  next : Time;
  paginated : bool;
  logsErr : option error
}.

(** What the metadata method returns: [(logs, err)]. *)
Record MetaResult : Type := mkMetaResult {
  logs : list model.APILog;
  metaErr : option error
}.

Inductive Call : Type :=
| LogsCall (q : LogsQuery)
| MetaCall (q : MetaQuery).

(** A connector answers a call; its answer may depend on the calls made
    before (the store behind it has a state of its own). *)
Record Connector : Type := mkConnector {
  answerLogs : list Call -> LogsQuery -> LogsResult;
  answerMeta : list Call -> MetaQuery -> MetaResult
}.

End data.

(** A handler's [Run] as a program over connector calls: it returns, or it
    calls the connector and goes on with the answer. *)
Inductive Store (A : Type) : Type :=
| Ret (a : A)
| Logs (q : data.LogsQuery) (k : data.LogsResult -> Store A)
| Meta (q : data.MetaQuery) (k : data.MetaResult -> Store A).

Arguments Ret {A} a.
Arguments Logs {A} q k.
Arguments Meta {A} q k.

Fixpoint Store_bind {A B : Type} (f : A -> Store B) (m : Store A) : Store B :=
  match m with
  | Ret a => f a
  | Logs q k => Logs q (fun r => Store_bind f (k r))
  | Meta q k => Meta q (fun r => Store_bind f (k r))
  end.

#[export] Instance Store_mret : MRet Store := @Ret.
#[export] Instance Store_mbind : MBind Store := @Store_bind.

Definition callLogs (q : data.LogsQuery) : Store data.LogsResult := Logs q Ret.
Definition callMeta (q : data.MetaQuery) : Store data.MetaResult := Meta q Ret.

(** Running a program against a connector, from the calls made so far:
    the value returned and all calls made, in order. *)
Fixpoint exec {A : Type} (sc : data.Connector) (hist : list data.Call)
    (m : Store A) : A * list data.Call :=
  match m with
  | Ret a => (a, hist)
  | Logs q k =>
      exec sc (hist ++ [data.LogsCall q])%list (k (data.answerLogs sc hist q))
  | Meta q k =>
      exec sc (hist ++ [data.MetaCall q])%list (k (data.answerMeta sc hist q))
  end.

Definition run {A : Type} (sc : data.Connector) (m : Store A) : A * list data.Call :=
  exec sc [] m.

(** The two metadata methods of [data.Connector] that a handler calls once
    and for nothing else, each as the function from its argument to what it
    returns: by the id of a log, a pointer to its metadata (nil without
    one) and an error; by task, the metadata of its logs and an error. *)
Module metadata.

Record Connector : Type := mkConnector {
  FindLogMetadataByID : string -> option model.APILog * option error;
  FindLogMetadataByTaskID : data.BuildloggerOptions -> data.MetaResult
}.

End metadata.

(** ** gimlet: pages and responders *)

Module gimlet.

Record Page : Type := mkPage {
  BaseURL : string;
  KeyQueryParam : string;
  LimitQueryParam : string;
  Key : string;
  Limit : Z;
  Relation : string
}.

Record ResponsePages : Type := mkPages {
  Prev : option Page;
  Next : option Page
}.

Inductive body : Type :=
| errorBody (err : error)
| jsonBody (logs : list model.APILog)
| textBody (data : list Byte.byte).

Record Responder : Type := mkResponder {
  Body : body;
  Pages : option ResponsePages
}.

Definition MakeJSONErrorResponder (err : error) : Responder :=
  mkResponder (errorBody err) None.

Definition NewJSONResponse (logs : list model.APILog) : Responder :=
  mkResponder (jsonBody logs) None.

Definition NewTextResponse (data : list Byte.byte) : Responder :=
  mkResponder (textBody data) None.

End gimlet.

(** ** What the package takes from outside the file *)

(** [parseTimeRange] is a function of this package that is declared outside
    rest/buildlogger_routes.go; [Time.Format] belongs to the time package,
    and it is gimlet that validates the pages given to a responder and
    reports the error when it refuses them.  The handlers are stated over
    any such three. *)
Class Externals : Type := {
  parseTimeRange : Values -> string -> string -> util.TimeRange * option error;
  Time_Format : Time -> string -> string;
  ResponsePages_Validate : gimlet.ResponsePages -> option error
}.

(** [resp.SetPages(pages)]: the responder keeps the pages when they
    validate; otherwise it is left as it was and the error is returned. *)
Definition SetPages `{Externals} (resp : gimlet.Responder)
    (p : gimlet.ResponsePages) : gimlet.Responder * option error :=
  match ResponsePages_Validate p with
  | Some err => (resp, Some err)
  | None => (gimlet.mkResponder (gimlet.Body resp) (Some p), None)
  end.

(** ** The package *)

Module rest.

Definition logStartAt : string := "start".
Definition logEndAt : string := "end".
Definition execution : string := "execution".
Definition procName : string := "proc_name".
Definition tags : string := "tags".
Definition printTime : string := "print_time".
Definition printPriority : string := "print_priority".
Definition limit : string := "limit".
Definition paginate : string := "paginate".
Definition trueString : string := "true".
Definition softSizeLimit : Z := 10 * 1024 * 1024.
Definition baseURL : string := "https://cedar.mongodb.com".

(** [newBuildloggerResponder] *)
Definition newBuildloggerResponder `{Externals} (data : list Byte.byte)
    (last next : Time) (paginated : bool) : gimlet.Responder :=
  let resp := gimlet.NewTextResponse data in
  if paginated then
    let pages :=
      {| gimlet.Prev := Some
           {| gimlet.BaseURL := baseURL;
              gimlet.KeyQueryParam := "start";
              gimlet.LimitQueryParam := "limit";
              gimlet.Key := Time_Format last RFC3339;
              gimlet.Limit := 0;
              gimlet.Relation := "prev" |};
         gimlet.Next := Some
           {| gimlet.BaseURL := baseURL;
              gimlet.KeyQueryParam := "start";
              gimlet.LimitQueryParam := "limit";
              gimlet.Key := Time_Format next RFC3339;
              gimlet.Limit := 0;
              gimlet.Relation := "next" |} |} in
    match SetPages resp pages with
    | (_, Some err) =>
        gimlet.MakeJSONErrorResponder
          (withMessage err "problem setting response pages")
    | (resp, None) => resp
    end
  else resp.

(** *** GET /buildlogger/{id} *)
Module logGetByIDHandler.
Section Handler.
Context `{Externals}.

(** The handler; its connector is the one the program is run against. *)
Record t : Type := mk {
  id : string;
  tr : util.TimeRange;
  printTime : bool;
  printPriority : bool;
  paginate : bool;
  limit : Z
}.

(** [Factory]: every field has its zero value. *)
Definition Factory : t := mk "" util.zero false false false 0.

(** [Parse] assigns each field once, from the request; the handler it
    leaves is given field by field, with the fields of [h] where the source
    assigns nothing.  [len(vals[limit]) > 0] and [vals[limit][0]] are the
    match on the values of [limit]. *)
Definition Parse (h : t) (r : Request) : t * option error :=
  let catcher := NewBasicCatcher in
  let vals := Query r in
  let '(tr', err) := parseTimeRange vals logStartAt logEndAt in
  let catcher := catcher_Add catcher err in
  let '(limit', catcher) :=
    match Values_index vals rest.limit with
    | v :: _ => let '(i, err) := Atoi v in (i, catcher_Add catcher err)
    | [] => (limit h, catcher)
    end in
  ({| id := GetVar r "id";
      tr := tr';
      printTime := bool_decide (Values_Get vals rest.printTime = trueString);
      printPriority := bool_decide (Values_Get vals rest.printPriority = trueString);
      paginate := bool_decide (Values_Get vals rest.paginate = trueString);
      limit := limit' |},
   catcher_Resolve catcher).

(** The options [Run] starts from: the literal, and the soft size limit
    of a paginated request. *)
Definition opts (h : t) : data.BuildloggerOptions :=
  let opts :=
    {| data.ID := id h; data.TaskID := ""; data.TestName := "";
       data.Execution := 0; data.ProcessName := ""; data.Tags := [];
       data.TimeRange := tr h;
       data.PrintTime := printTime h;
       data.PrintPriority := printPriority h;
       data.Limit := limit h; data.Tail := 0; data.SoftSizeLimit := 0 |} in
  if paginate h && (data.Limit opts <=? 0)
  then data.set_SoftSizeLimit opts softSizeLimit else opts.

Definition Run (h : t) : Store gimlet.Responder :=
  let opts := opts h in
  res ← callLogs (data.FindLogByID opts);
  match data.logsErr res with
  | Some err =>
      mret (gimlet.MakeJSONErrorResponder (withMessage err ("Error getting log by id '" ++ id h ++ "'")))
  | None =>
      mret (newBuildloggerResponder (data.logData res) (util.StartAt (tr h))
              (data.next res) (data.paginated res))
  end.

End Handler.
End logGetByIDHandler.

(** *** GET /buildlogger/{id}/meta *)
Module logMetaGetByIDHandler.

Record t : Type := mk { id : string }.

Definition Factory : t := mk "".

Definition Parse (h : t) (r : Request) : t * option error :=
  ({| id := GetVar r "id" |}, None).

(** What [Run] responds with: the JSON error responder, or the JSON response
    of the pointer the connector returned. *)
Inductive response : Type :=
| failed (resp : gimlet.Responder)
| jsonLog (apiLog : option model.APILog).

Definition Run (sc : metadata.Connector) (h : t) : response :=
  let '(apiLog, err) := metadata.FindLogMetadataByID sc (id h) in
  match err with
  | Some err =>
      failed (gimlet.MakeJSONErrorResponder
                (withMessage err
                   ("Error getting log metadata by id '" ++ id h ++ "'")))
  | None => jsonLog apiLog
  end.

End logMetaGetByIDHandler.

(** *** GET /buildlogger/task_id/{task_id} *)
Module logGetByTaskIDHandler.
Section Handler.
Context `{Externals}.

Record t : Type := mk {
  id : string;
  procName : string;
  execution : Z;
  tags : list string;
  tr : util.TimeRange;
  printTime : bool;
  printPriority : bool;
  paginate : bool;
  n : Z;
  limit : Z
}.

Definition Factory : t := mk "" "" 0 [] util.zero false false false 0 0.

Definition Parse (h : t) (r : Request) : t * option error :=
  let catcher := NewBasicCatcher in
  let vals := Query r in
  let '(tr', err) := parseTimeRange vals logStartAt logEndAt in
  let catcher := catcher_Add catcher err in
  let '(execution', catcher) :=
    match Values_index vals rest.execution with
    | v :: _ => let '(i, err) := Atoi v in (i, catcher_Add catcher err)
    | [] => (execution h, catcher)
    end in
  let '(limit', catcher) :=
    match Values_index vals rest.limit with
    | v :: _ => let '(i, err) := Atoi v in (i, catcher_Add catcher err)
    | [] => (limit h, catcher)
    end in
  let '(n', catcher) :=
    match Values_index vals "n" with
    | v :: _ => let '(i, err) := Atoi v in (i, catcher_Add catcher err)
    | [] => (n h, catcher)
    end in
  ({| id := GetVar r "task_id";
      procName := Values_Get vals rest.procName;
      execution := execution';
      tags := Values_index vals rest.tags;
      tr := tr';
      printTime := bool_decide (Values_Get vals rest.printTime = trueString);
      printPriority := bool_decide (Values_Get vals rest.printPriority = trueString);
      paginate := bool_decide (Values_Get vals rest.paginate = trueString);
      n := n';
      limit := limit' |},
   catcher_Resolve catcher).

(** The options [Run] starts from: the literal, and the soft size limit
    of a paginated request. *)
Definition opts (h : t) : data.BuildloggerOptions :=
  let opts :=
    {| data.ID := ""; data.TaskID := id h; data.TestName := "";
       data.Execution := execution h;
       data.ProcessName := procName h;
       data.Tags := tags h;
       data.TimeRange := tr h;
       data.PrintTime := printTime h;
       data.PrintPriority := printPriority h;
       data.Limit := limit h;
       data.Tail := n h;
       data.SoftSizeLimit := 0 |} in
  if paginate h && (data.Limit opts <=? 0) && (data.Tail opts <=? 0)
  then data.set_SoftSizeLimit opts softSizeLimit else opts.

Definition Run (h : t) : Store gimlet.Responder :=
  let opts := opts h in
  res ← callLogs (data.FindLogsByTaskID opts);
  match data.logsErr res with
  | Some err =>
      mret (gimlet.MakeJSONErrorResponder (withMessage err ("Error getting logs by task id '" ++ id h ++ "'")))
  | None =>
      mret (newBuildloggerResponder (data.logData res) (util.StartAt (tr h))
              (data.next res) (data.paginated res))
  end.

End Handler.
End logGetByTaskIDHandler.

(** *** GET /buildlogger/task_id/{task_id}/meta *)
Module logMetaGetByTaskIDHandler.

Record t : Type := mk {
  id : string;
  tags : list string
}.

Definition Factory : t := mk "" [].

Definition Parse (h : t) (r : Request) : t * option error :=
  let vals := Query r in
  ({| id := GetVar r "task_id";
      tags := Values_index vals rest.tags |},
   None).

Definition opts (h : t) : data.BuildloggerOptions :=
  {| data.ID := ""; data.TaskID := id h; data.TestName := "";
     data.Execution := 0; data.ProcessName := "";
     data.Tags := tags h;
     data.TimeRange := util.zero;
     data.PrintTime := false; data.PrintPriority := false;
     data.Limit := 0; data.Tail := 0; data.SoftSizeLimit := 0 |}.

Definition Run (sc : metadata.Connector) (h : t) : gimlet.Responder :=
  let opts := opts h in
  let res := metadata.FindLogMetadataByTaskID sc opts in
  match data.metaErr res with
  | Some err =>
      gimlet.MakeJSONErrorResponder
        (withMessage err
           ("Error getting log metadata by task id '" ++ id h ++ "'"))
  | None => gimlet.NewJSONResponse (data.logs res)
  end.

End logMetaGetByTaskIDHandler.

(** *** GET /buildlogger/test_name/{task_id}/{test_name} *)
Module logGetByTestNameHandler.
Section Handler.
Context `{Externals}.

Record t : Type := mk {
  id : string;
  name : string;
  tags : list string;
  tr : util.TimeRange;
  printTime : bool;
  printPriority : bool;
  paginate : bool;
  limit : Z
}.

Definition Factory : t := mk "" "" [] util.zero false false false 0.

Definition Parse (h : t) (r : Request) : t * option error :=
  let catcher := NewBasicCatcher in
  let vals := Query r in
  let '(tr', err) := parseTimeRange vals logStartAt logEndAt in
  let catcher := catcher_Add catcher err in
  let '(limit', catcher) :=
    match Values_index vals rest.limit with
    | v :: _ => let '(i, err) := Atoi v in (i, catcher_Add catcher err)
    | [] => (limit h, catcher)
    end in
  ({| id := GetVar r "task_id";
      name := GetVar r "test_name";
      tags := Values_index vals rest.tags;
      tr := tr';
      printTime := bool_decide (Values_Get vals rest.printTime = trueString);
      printPriority := bool_decide (Values_Get vals rest.printPriority = trueString);
      paginate := bool_decide (Values_Get vals rest.paginate = trueString);
      limit := limit' |},
   catcher_Resolve catcher).

(** The options [Run] starts from: the literal, and the soft size limit
    of a paginated request. *)
Definition opts (h : t) : data.BuildloggerOptions :=
  let opts :=
    {| data.ID := ""; data.TaskID := id h; data.TestName := name h;
       data.Execution := 0; data.ProcessName := "";
       data.Tags := tags h;
       data.TimeRange := tr h;
       data.PrintTime := printTime h;
       data.PrintPriority := printPriority h;
       data.Limit := limit h; data.Tail := 0; data.SoftSizeLimit := 0 |} in
  if paginate h && (data.Limit opts <=? 0)
  then data.set_SoftSizeLimit opts softSizeLimit else opts.

Definition Run (h : t) : Store gimlet.Responder :=
  let opts := opts h in
  res ← callLogs (data.FindLogsByTestName opts);
  match data.logsErr res with
  | Some err =>
      mret (gimlet.MakeJSONErrorResponder (withMessage err ("Error getting logs by test name '" ++ name h ++ "'")))
  | None =>
      mret (newBuildloggerResponder (data.logData res) (util.StartAt (tr h))
              (data.next res) (data.paginated res))
  end.

End Handler.
End logGetByTestNameHandler.

(** *** GET /buildlogger/test_name/{task_id}/{test_name}/meta *)
Module logMetaGetByTestNameHandler.

Record t : Type := mk {
  id : string;
  name : string;
  tags : list string
}.

Definition Factory : t := mk "" "" [].

Definition Parse (h : t) (r : Request) : t * option error :=
  let vals := Query r in
  ({| id := GetVar r "task_id";
      name := GetVar r "test_name";
      tags := Values_index vals rest.tags |},
   None).

(** The options [Run] starts from. *)
Definition opts (h : t) : data.BuildloggerOptions :=
  {| data.ID := ""; data.TaskID := id h; data.TestName := name h;
     data.Execution := 0; data.ProcessName := "";
     data.Tags := tags h;
     data.TimeRange := util.zero;
     data.PrintTime := false; data.PrintPriority := false;
     data.Limit := 0; data.Tail := 0; data.SoftSizeLimit := 0 |}.

(** The second test, [err != nil && (!ok || errResp.StatusCode ==
    http.StatusNotFound)], is taken under the case of a non-nil [err], which
    is the error the responder then wraps. *)
Definition Run (h : t) : Store gimlet.Responder :=
  let opts := opts h in
  res ← callMeta (data.FindLogMetadataByTestName opts);
  let testLogs := data.logs res in
  match data.metaErr res with
  | Some err =>
      mret (gimlet.MakeJSONErrorResponder
              (withMessage err
                 ("Error getting log metadata by test name '" ++ name h ++ "'")))
  | None =>
      let opts := data.set_TestName opts "" in
      res ← callMeta (data.FindLogMetadataByTestName opts);
      let globalLogs := data.logs res in
      let '((StatusCode, _), ok) := asErrorResponse (data.metaErr res) in
      match data.metaErr res with
      | Some err =>
          if negb ok || (StatusCode =? StatusNotFound) then
            mret (gimlet.MakeJSONErrorResponder
                    (withMessage err
                       ("Error getting log metadata by test name '" ++ name h ++ "'")))
          else
            mret (gimlet.NewJSONResponse (testLogs ++ globalLogs)%list)
      | None =>
          mret (gimlet.NewJSONResponse (testLogs ++ globalLogs)%list)
      end
  end.

End logMetaGetByTestNameHandler.

(** *** GET /buildlogger/test_name/{task_id}/{test_name}/group/{group_id} *)
Module logGroupHandler.
Section Handler.
Context `{Externals}.

Record t : Type := mk {
  id : string;
  name : string;
  groupID : string;
  tags : list string;
  tr : util.TimeRange;
  printTime : bool;
  printPriority : bool;
  paginate : bool;
  limit : Z
}.

Definition Factory : t := mk "" "" "" [] util.zero false false false 0.

Definition Parse (h : t) (r : Request) : t * option error :=
  let catcher := NewBasicCatcher in
  let vals := Query r in
  let '(tr', catcher) :=
    if negb (bool_decide (Values_Get vals logStartAt = ""))
       || negb (bool_decide (Values_Get vals logEndAt = ""))
    then
      let '(tr', err) := parseTimeRange vals logStartAt logEndAt in
      (tr', catcher_Add catcher err)
    else (tr h, catcher) in
  let '(limit', catcher) :=
    match Values_index vals rest.limit with
    | v :: _ => let '(i, err) := Atoi v in (i, catcher_Add catcher err)
    | [] => (limit h, catcher)
    end in
  ({| id := GetVar r "task_id";
      name := GetVar r "test_name";
      groupID := GetVar r "group_id";
      tags := Values_index vals rest.tags;
      tr := tr';
      printTime := bool_decide (Values_Get vals rest.printTime = trueString);
      printPriority := bool_decide (Values_Get vals rest.printPriority = trueString);
      paginate := bool_decide (Values_Get vals rest.paginate = trueString);
      limit := limit' |},
   catcher_Resolve catcher).

(** The body of the loop over the metadata entries, on the time range of
    the options. *)
Definition inferStep (tr : util.TimeRange) (log : model.APILog) : util.TimeRange :=
  let tr :=
    if Time_After (util.StartAt tr) (model.CreatedAt log)
       || Time_IsZero (util.StartAt tr)
    then util.set_StartAt tr (model.CreatedAt log) else tr in
  let tr :=
    if Time_Before (util.EndAt tr) (model.CompletedAt log)
    then util.set_EndAt tr (model.CompletedAt log) else tr in
  tr.

(** The loop itself. *)
Definition inferRange (tr : util.TimeRange) (testLogs : list model.APILog)
    : util.TimeRange :=
  fold_left inferStep testLogs tr.

(** The part of [Run] from the call of [FindGroupedLogs] on. *)
Definition findGroupedLogs (h : t) (opts : data.BuildloggerOptions)
    : Store gimlet.Responder :=
  res ← callLogs (data.FindGroupedLogs opts);
  match data.logsErr res with
  | Some err =>
      mret (gimlet.MakeJSONErrorResponder
              (withMessage err
                 ("Error getting grouped logs with task_id/test_name/group_id '"
                  ++ id h ++ "/" ++ name h ++ "/" ++ groupID h ++ "'")))
  | None =>
      mret (newBuildloggerResponder (data.logData res) (util.StartAt (tr h))
              (data.next res) (data.paginated res))
  end.

(** The options [Run] starts from: the literal, and the soft size limit
    of a paginated request. *)
Definition opts (h : t) : data.BuildloggerOptions :=
  let opts :=
    {| data.ID := ""; data.TaskID := id h; data.TestName := name h;
       data.Execution := 0; data.ProcessName := "";
       data.Tags := (tags h ++ [groupID h])%list;
       data.TimeRange := tr h;
       data.PrintTime := printTime h;
       data.PrintPriority := printPriority h;
       data.Limit := limit h; data.Tail := 0; data.SoftSizeLimit := 0 |} in
  if paginate h && (data.Limit opts <=? 0)
  then data.set_SoftSizeLimit opts softSizeLimit else opts.

Definition Run (h : t) : Store gimlet.Responder :=
  let opts := opts h in
  if util.IsZero (data.TimeRange opts) then
    res ← callMeta (data.FindLogMetadataByTestName opts);
    let testLogs := data.logs res in
    match data.metaErr res with
    | Some err =>
        mret (gimlet.MakeJSONErrorResponder
                (withMessage err
                   ("Error getting log metadata by test name '" ++ name h ++ "'")))
    | None =>
        findGroupedLogs h
          (data.set_TimeRange opts (inferRange (data.TimeRange opts) testLogs))
    end
  else findGroupedLogs h opts.

End Handler.
End logGroupHandler.

End rest.

(** ** One choice of the outside parts, to run the handlers on requests *)

Module std.

(** *** Reading and writing an instant in the RFC3339 layout *)

Fixpoint readDigits (n : nat) (s : string) (acc : Z) : option (Z * string) :=
  match n with
  | O => Some (acc, s)
  | S n' =>
      match s with
      | String ch rest => d ← digit ch; readDigits n' rest (acc * 10 + d)
      | EmptyString => None
      end
  end.

Definition expect (c : ascii) (s : string) : option string :=
  match s with
  | String ch rest => if bool_decide (ch = c) then Some rest else None
  | EmptyString => None
  end.

(** The digits of a fraction of a second, as nanoseconds; digits past the
    ninth are dropped. *)
Fixpoint readFraction (s : string) (scale acc : Z) : Z * string :=
  match s with
  | String ch rest =>
      match digit ch with
      | Some d => readFraction rest (scale / 10) (acc + d * scale)
      | None => (acc, s)
      end
  | EmptyString => (acc, s)
  end.

Definition isLeap (y : Z) : bool :=
  (y mod 4 =? 0) && (negb (y mod 100 =? 0) || (y mod 400 =? 0)).

Definition daysIn (m y : Z) : Z :=
  if m =? 2 then (if isLeap y then 29 else 28)
  else if (m =? 4) || (m =? 6) || (m =? 9) || (m =? 11) then 30 else 31.

Definition daysBefore (m : Z) : Z :=
  nth (Z.to_nat (m - 1)) [0; 31; 59; 90; 120; 151; 181; 212; 243; 273; 304; 334] 0.

(** Days from January 1 of year 1 to the given day. *)
Definition daysSinceZero (y m d : Z) : Z :=
  365 * (y - 1) + (y - 1) / 4 - (y - 1) / 100 + (y - 1) / 400
  + daysBefore m + (if isLeap y && (2 <? m) then 1 else 0) + (d - 1).

(** The zone: [Z], or a signed offset [hh:mm]; nothing may follow. *)
Definition readZone (s : string) : option Z :=
  match s with
  | String ch rest =>
      if bool_decide (ch = "Z"%char) then
        match rest with EmptyString => Some 0 | _ => None end
      else if isSign ch then
        '(hh, s) ← readDigits 2 rest 0;
        s ← expect ":"%char s;
        '(mm, s) ← readDigits 2 s 0;
        match s with
        | EmptyString =>
            if (hh <? 24) && (mm <? 60) then
              let off := hh * 3600 + mm * 60 in
              Some (if bool_decide (ch = "-"%char) then - off else off)
            else None
        | _ => None
        end
      else None
  | EmptyString => None
  end.

Definition parseRFC3339 (s : string) : option Time :=
  '(y, s) ← readDigits 4 s 0;
  s ← expect "-"%char s;
  '(mo, s) ← readDigits 2 s 0;
  s ← expect "-"%char s;
  '(d, s) ← readDigits 2 s 0;
  s ← expect "T"%char s;
  '(h, s) ← readDigits 2 s 0;
  s ← expect ":"%char s;
  '(mi, s) ← readDigits 2 s 0;
  s ← expect ":"%char s;
  '(sec, s) ← readDigits 2 s 0;
  '(ns, s) ←
    match s with
    | String "."%char (String ch _ as rest) =>
        _ ← digit ch; Some (readFraction rest (10 ^ 8) 0)
    | _ => Some (0, s)
    end;
  off ← readZone s;
  if (1 <=? mo) && (mo <=? 12) && (1 <=? d) && (d <=? daysIn mo y)
     && (h <? 24) && (mi <? 60) && (sec <? 60)
  then
    Some (mkTime
            ((daysSinceZero y mo d * 86400 + h * 3600 + mi * 60 + sec - off)
             * 10 ^ 9 + ns)
            off)
  else None.

Definition digitChar (n : Z) : string :=
  String (ascii_of_N (Z.to_N (48 + n mod 10))) "".

(** The last [w] decimal digits of [n]. *)
Fixpoint pad (w : nat) (n : Z) : string :=
  match w with
  | O => ""
  | S w' => pad w' (n / 10) ++ digitChar n
  end.

(** All decimal digits of [n], given enough fuel. *)
Fixpoint digitsOf (fuel : nat) (n : Z) : string :=
  match fuel with
  | O => ""
  | S fuel' => (if n <? 10 then "" else digitsOf fuel' (n / 10)) ++ digitChar n
  end.

(** [n], which is not negative, in decimal with at least [w] digits. *)
Definition appendInt (n : Z) (w : nat) : string :=
  if n <? 10 ^ Z.of_nat w then pad w n else digitsOf (S (Z.to_nat (Z.log2 n))) n.

(** The civil date of a day counted from January 1 of year 1. *)
Definition civil (days : Z) : Z * Z * Z :=
  let z := days + 306 in
  let era := z / 146097 in
  let doe := z - era * 146097 in
  let yoe := (doe - doe / 1460 + doe / 36524 - doe / 146096) / 365 in
  let doy := doe - (365 * yoe + yoe / 4 - yoe / 100) in
  let mp := (5 * doy + 2) / 153 in
  let d := doy - (153 * mp + 2) / 5 + 1 in
  let m := if mp <? 10 then mp + 3 else mp - 9 in
  let y := yoe + era * 400 + (if m <=? 2 then 1 else 0) in
  (y, m, d).

Definition formatRFC3339 (t : Time) : string :=
  let secs := instant t / 10 ^ 9 + offset t in
  let '(y, m, d) := civil (secs / 86400) in
  let rem := secs mod 86400 in
  let off := Z.abs (offset t) in
  (if y <? 0 then "-" else "") ++ appendInt (Z.abs y) 4 ++ "-" ++ pad 2 m ++ "-" ++ pad 2 d
  ++ "T" ++ pad 2 (rem / 3600) ++ ":" ++ pad 2 (rem / 60 mod 60) ++ ":" ++ pad 2 (rem mod 60)
  ++ (if offset t =? 0 then "Z"
      else (if offset t <? 0 then "-" else "+")
           ++ pad 2 (off / 3600) ++ ":" ++ pad 2 (off / 60 mod 60)).

(** [Time.Format], for the RFC3339 layout, which is the one the package
    uses. *)
Definition Format (t : Time) (layout : string) : string :=
  if bool_decide (layout = RFC3339) then formatRFC3339 t else layout.

(** *** The time range of a query string *)

(** Modelled from the spec: [parseTimeRange] belongs to this package but is
    declared outside rest/buildlogger_routes.go.  It reads the two bounds named
    by [start] and [end] from the query values, each in the RFC3339 layout;
    a bound that is malformed makes it return an error, and one error is
    all its signature returns.  A bound that is not given is left at the
    zero instant. *)
Definition parseTimeRange (vals : Values) (start end_ : string)
    : util.TimeRange * option error :=
  let startVal := Values_Get vals start in
  let endVal := Values_Get vals end_ in
  let readBound (v : string) : option Time :=
    if bool_decide (v = "") then Some zeroTime else parseRFC3339 v in
  match readBound startVal, readBound endVal with
  | Some s, Some e => (util.mkTimeRange s e, None)
  | None, _ =>
      (util.zero, Some (errorString ("problem parsing start time '" ++ startVal ++ "'")))
  | Some _, None =>
      (util.zero, Some (errorString ("problem parsing end time '" ++ endVal ++ "'")))
  end.

(** *** Pages that a responder accepts *)

Definition validPage (p : gimlet.Page) : bool :=
  negb (bool_decide (gimlet.BaseURL p = ""))
  && negb (bool_decide (gimlet.KeyQueryParam p = ""))
  && negb (bool_decide (gimlet.LimitQueryParam p = ""))
  && negb (bool_decide (gimlet.Key p = ""))
  && negb (bool_decide (gimlet.Relation p = "")).

(** A page that is given must name its base location, its parameters, its
    key and its relation. *)
Definition Validate (p : gimlet.ResponsePages) : option error :=
  if from_option validPage true (gimlet.Prev p)
     && from_option validPage true (gimlet.Next p)
  then None else Some (errorString "invalid page definition").

Definition externals : Externals :=
  Build_Externals parseTimeRange Format Validate.

(** A connector that gives every call the same answers. *)
Definition constConnector (lr : data.LogsResult) (mr : data.MetaResult)
    : data.Connector :=
  data.mkConnector (fun _ _ => lr) (fun _ _ => mr).

End std.

(** ** The options a call carries *)

(** A mode is active in the options when its field is positive. *)
Definition explicitLimitActive (o : data.BuildloggerOptions) : bool := 0 <? data.Limit o.
Definition tailActive (o : data.BuildloggerOptions) : bool := 0 <? data.Tail o.
Definition softSizeActive (o : data.BuildloggerOptions) : bool := 0 <? data.SoftSizeLimit o.

Definition activeModes (o : data.BuildloggerOptions) : nat :=
  (if explicitLimitActive o then 1 else 0)
  + (if tailActive o then 1 else 0)
  + (if softSizeActive o then 1 else 0).

(** The options a call hands to the connector. *)
Definition callOpts (c : data.Call) : data.BuildloggerOptions :=
  match c with
  | data.LogsCall (data.FindLogByID o)
  | data.LogsCall (data.FindLogsByTaskID o)
  | data.LogsCall (data.FindLogsByTestName o)
  | data.LogsCall (data.FindGroupedLogs o)
  | data.MetaCall (data.FindLogMetadataByTestName o) => o
  end.

(** ** The words of the specification *)

(** Soft-size retrieval is selected in the options exactly under [P]: the
    cap is 10 MiB when [P] holds, and no cap is set when it does not. *)
Definition softSizeSelectedIff (P : Prop) (o : data.BuildloggerOptions) : Prop :=
  (data.SoftSizeLimit o = 10 * 1024 * 1024 <-> P)
  /\ (data.SoftSizeLimit o = 0 <-> ~ P).

(** A navigation descriptor over the fixed base location and the parameter
    names [start] and [limit]. *)
Definition navPage (relation key : string) : gimlet.Page :=
  {| gimlet.BaseURL := "https://cedar.mongodb.com";
     gimlet.KeyQueryParam := "start";
     gimlet.LimitQueryParam := "limit";
     gimlet.Key := key;
     gimlet.Limit := 0;
     gimlet.Relation := relation |}.

(** The earliest creation instant and the latest completion instant of the
    entries of a list, as the specification words them; the list is meant
    not to be empty. *)
Definition createdInstant (l : model.APILog) : Z := instant (model.CreatedAt l).
Definition completedInstant (l : model.APILog) : Z := instant (model.CompletedAt l).

Definition minCreatedAt (logs : list model.APILog) : Z :=
  match logs with
  | [] => 0
  | l :: ls => fold_left Z.min (map createdInstant ls) (createdInstant l)
  end.

Definition maxCompletedAt (logs : list model.APILog) : Z :=
  match logs with
  | [] => 0
  | l :: ls => fold_left Z.max (map completedInstant ls) (completedInstant l)
  end.

(** The errors a resolved catcher error is made of. *)
Definition entries (err : option error) : list error :=
  match err with
  | Some (catcherError errs) => errs
  | Some e => [e]
  | None => []
  end.

(** The error of reading the first value of a numeric parameter, when the
    parameter is given. *)
Definition atoiErrors (vals : Values) (key : string) : list error :=
  match Values_index vals key with
  | v :: _ => option_list (Atoi v).2
  | [] => []
  end.

(** ** Requests and stores to run the handlers on *)

(** The fields of the by-task query that are malformed, as the specification
    counts them: each bound of the time range that is given and is no
    RFC3339 instant, and each numeric parameter whose first value is no
    integer. *)
Definition malformedBound (vals : Values) (key : string) : bool :=
  let v := Values_Get vals key in
  negb (bool_decide (v = ""))
  && match std.parseRFC3339 v with None => true | Some _ => false end.

Definition malformedInt (vals : Values) (key : string) : bool :=
  match atoiErrors vals key with [] => false | _ => true end.

Definition malformedFields (vals : Values) : nat :=
  ((if malformedBound vals rest.logStartAt then 1 else 0)
   + (if malformedBound vals rest.logEndAt then 1 else 0)
   + (if malformedInt vals rest.execution then 1 else 0)
   + (if malformedInt vals rest.limit then 1 else 0)
   + (if malformedInt vals "n" then 1 else 0))%nat.

Module scenario.

Definition at_ (s : string) : Time := default zeroTime (std.parseRFC3339 s).

(** Two entries whose lifetimes overlap, and one whose creation instant was
    never set. *)
Definition logA : model.APILog :=
  model.mkAPILog "A" (at_ "2021-01-01T00:00:00Z") (at_ "2021-01-01T01:00:00Z").
Definition logB : model.APILog :=
  model.mkAPILog "B" (at_ "2021-01-01T00:30:00Z") (at_ "2021-01-01T02:00:00Z").
Definition logUnset : model.APILog :=
  model.mkAPILog "U" zeroTime (at_ "2021-01-01T01:00:00Z").

(** A truncated payload, to be continued at the given instant. *)
Definition truncated : data.LogsResult :=
  data.mkLogsResult [Byte.x6c; Byte.x6f; Byte.x67] (at_ "2021-01-02T00:00:00Z")
    true None.

Definition store : data.Connector :=
  std.constConnector truncated (data.mkMetaResult [logA; logB] None).

(** A store that knows the logs of a test and answers the query without a
    test name with the given error response. *)
Definition globalFails (code : Z) : data.Connector :=
  data.mkConnector (fun _ _ => truncated)
    (fun _ q =>
       match q with
       | data.FindLogMetadataByTestName o =>
           if bool_decide (data.TestName o = "")
           then data.mkMetaResult [] (Some (ErrorResponse code "no logs"))
           else data.mkMetaResult [logA] None
       end).

(** [/buildlogger/test_name/T1/test1/meta] *)
Definition metaByTestName : rest.logMetaGetByTestNameHandler.t :=
  (rest.logMetaGetByTestNameHandler.Parse rest.logMetaGetByTestNameHandler.Factory
     (mkRequest (<["task_id" := "T1"]> {["test_name" := "test1"]}) ∅)).1.

(** [/buildlogger/task_id/T1?limit=5&n=3] *)
Definition limitAndTail : Request :=
  mkRequest {["task_id" := "T1"]} (<["limit" := ["5"]]> {["n" := ["3"]]}).

(** [/buildlogger/task_id/T1?start=yesterday&end=tomorrow] *)
Definition badBounds : Request :=
  mkRequest {["task_id" := "T1"]}
    (<["start" := ["yesterday"]]> {["end" := ["tomorrow"]]}).

(** [/buildlogger/task_id/T1?tags=a&tags=b&paginate=true] *)
Definition paginatedByTask : Request :=
  mkRequest {["task_id" := "T1"]}
    (<["tags" := ["a"; "b"]]> {["paginate" := ["true"]]}).

(** [/buildlogger/test_name/T1/test1/group/G1?paginate=true] *)
Definition groupNoBounds : Request :=
  mkRequest (<["task_id" := "T1"]> (<["test_name" := "test1"]> {["group_id" := "G1"]}))
    {["paginate" := ["true"]]}.

End scenario.

(** ** Further requests and stores *)

(** The integer a fresh handler holds for a numeric parameter after [Parse]:
    what [Atoi] returns for the first value, zero when none is given. *)
Definition firstInt (vals : Values) (key : string) : Z :=
  match Values_index vals key with
  | v :: _ => (Atoi v).1
  | [] => 0
  end.

Module more.

(** A store on which every metadata fetch fails. *)
Definition metaFails : data.Connector :=
  data.mkConnector (fun _ _ => scenario.truncated)
    (fun _ _ => data.mkMetaResult [] (Some (errorString "store is down"))).

(** A metadata store that knows one log, of one task. *)
Definition oneLog : metadata.Connector :=
  metadata.mkConnector
    (fun id =>
       if bool_decide (id = "A") then (Some scenario.logA, None)
       else (None, Some (ErrorResponse 404 "no such log")))
    (fun o =>
       if bool_decide (data.TaskID o = "T1")
       then data.mkMetaResult [scenario.logA] None
       else data.mkMetaResult [] (Some (ErrorResponse 404 "no such task"))).

(** Outside parts that refuse every time range. *)
Definition noRange : Externals :=
  Build_Externals
    (fun _ _ _ => (util.zero, Some (errorString "no time range")))
    std.Format std.Validate.

(** [/buildlogger/test_name/T1/test1/group/G1?limit=ten] *)
Definition groupBadLimit : Request :=
  mkRequest
    (<["task_id" := "T1"]> (<["test_name" := "test1"]> {["group_id" := "G1"]}))
    {["limit" := ["ten"]]}.

(** [/buildlogger/A/meta] and [/buildlogger/A/meta?tags=x&limit=ten] *)
Definition metaByID : Request := mkRequest {["id" := "A"]} ∅.
Definition metaByIDNoise : Request :=
  mkRequest {["id" := "A"]} (<["tags" := ["x"]]> {["limit" := ["ten"]]}).

(** [/buildlogger/task_id/T1/meta?tags=a] and the same with [limit=ten] *)
Definition metaByTask : Request :=
  mkRequest {["task_id" := "T1"]} {["tags" := ["a"]]}.
Definition metaByTaskNoise : Request :=
  mkRequest {["task_id" := "T1"]} (<["tags" := ["a"]]> {["limit" := ["ten"]]}).

End more.

(** * Properties *)

Import rest.

(** ** The library functions on a few inputs *)

Example Atoi_examples :
  Atoi "42" = (42, None) /\ Atoi "-7" = (-7, None) /\ Atoi "+0" = (0, None) /\
  Atoi "" = (0, Some (NumError "Atoi" "" ErrSyntax)) /\
  Atoi "-" = (0, Some (NumError "Atoi" "-" ErrSyntax)) /\
  Atoi "1x" = (0, Some (NumError "Atoi" "1x" ErrSyntax)) /\
  Atoi "9223372036854775807" = (9223372036854775807, None) /\
  Atoi "9223372036854775808" =
    (9223372036854775807, Some (NumError "Atoi" "9223372036854775808" ErrRange)) /\
  Atoi "-9223372036854775808" = (-9223372036854775808, None).
Proof. vm_compute. repeat split. Qed.

Example std_parseRFC3339_examples :
  std.parseRFC3339 "0001-01-01T00:00:00Z" = Some zeroTime /\
  std.parseRFC3339 "1970-01-01T00:00:00Z" = Some (mkTime (62135596800 * 10 ^ 9) 0) /\
  std.parseRFC3339 "2021-01-02T00:00:00.25+02:00" =
    Some (mkTime ((63745142400 - 7200) * 10 ^ 9 + 250000000) 7200) /\
  std.parseRFC3339 "2021-02-29T00:00:00Z" = None /\
  std.parseRFC3339 "2021-01-02" = None /\
  std.parseRFC3339 "yesterday" = None.
Proof. vm_compute. repeat split. Qed.

Example std_formatRFC3339_examples :
  std.formatRFC3339 zeroTime = "0001-01-01T00:00:00Z" /\
  std.formatRFC3339 (mkTime (62135596800 * 10 ^ 9) 0) = "1970-01-01T00:00:00Z" /\
  (std.formatRFC3339 <$> std.parseRFC3339 "2021-01-02T00:00:00Z") = Some "2021-01-02T00:00:00Z" /\
  (std.formatRFC3339 <$> std.parseRFC3339 "2024-02-29T23:59:59-05:30") = Some "2024-02-29T23:59:59-05:30" /\
  (std.formatRFC3339 <$> std.parseRFC3339 "1999-12-31T12:34:56.789Z") = Some "1999-12-31T12:34:56Z".
Proof. vm_compute. repeat split. Qed.

Section Calls.
Context `{Externals}.
Variable sc : data.Connector.

(** ** What each handler asks of the connector *)

Lemma logGetByID_calls (h : logGetByIDHandler.t) :
  (run sc (logGetByIDHandler.Run h)).2
  = [data.LogsCall (data.FindLogByID (logGetByIDHandler.opts h))].
Proof.
  unfold run, logGetByIDHandler.Run; simpl.
  destruct (data.logsErr _); reflexivity.
Qed.

Lemma logGetByTaskID_calls (h : logGetByTaskIDHandler.t) :
  (run sc (logGetByTaskIDHandler.Run h)).2
  = [data.LogsCall (data.FindLogsByTaskID (logGetByTaskIDHandler.opts h))].
Proof.
  unfold run, logGetByTaskIDHandler.Run; simpl.
  destruct (data.logsErr _); reflexivity.
Qed.

Lemma logGetByTestName_calls (h : logGetByTestNameHandler.t) :
  (run sc (logGetByTestNameHandler.Run h)).2
  = [data.LogsCall (data.FindLogsByTestName (logGetByTestNameHandler.opts h))].
Proof.
  unfold run, logGetByTestNameHandler.Run; simpl.
  destruct (data.logsErr _); reflexivity.
Qed.

Lemma logGroup_opts_TimeRange (h : logGroupHandler.t) :
  data.TimeRange (logGroupHandler.opts h) = logGroupHandler.tr h.
Proof. unfold logGroupHandler.opts. destruct (_ && _); reflexivity. Qed.

(** The grouped-log handler asks for the metadata first when its range is
    zero, and for the grouped logs unless that fails. *)
Lemma logGroup_calls (h : logGroupHandler.t) :
  let o := logGroupHandler.opts h in
  let m := data.FindLogMetadataByTestName o in
  let ans := data.answerMeta sc [] m in
  (run sc (logGroupHandler.Run h)).2 =
    if util.IsZero (logGroupHandler.tr h) then
      match data.metaErr ans with
      | Some _ => [data.MetaCall m]
      | None =>
          [data.MetaCall m;
           data.LogsCall
             (data.FindGroupedLogs
                (data.set_TimeRange o
                   (logGroupHandler.inferRange (logGroupHandler.tr h) (data.logs ans))))]
      end
    else [data.LogsCall (data.FindGroupedLogs o)].
Proof.
  intros o m ans. unfold run, logGroupHandler.Run.
  rewrite logGroup_opts_TimeRange.
  destruct (util.IsZero _); simpl.
  - fold o m ans. destruct (data.metaErr ans); simpl; [reflexivity|].
    destruct (data.logsErr _); reflexivity.
  - destruct (data.logsErr _); reflexivity.
Qed.

End Calls.

Section Modes.
Context `{Externals}.
Variable sc : data.Connector.

Lemma softSizeSelectedIff_if (cond : bool) (P : Prop) (o : data.BuildloggerOptions) :
  (cond = true <-> P) ->
  data.SoftSizeLimit o = (if cond then softSizeLimit else 0) ->
  softSizeSelectedIff P o.
Proof.
  intros HP E. unfold softSizeSelectedIff. rewrite E. unfold softSizeLimit.
  destruct cond; split; split; intros; try reflexivity; try discriminate;
    try lia; try (apply HP; reflexivity).
  - exfalso. apply H0, HP. reflexivity.
  - apply HP in H0. discriminate.
  - intros HP'. apply HP in HP'. discriminate.
Qed.

Lemma paginate_limit_iff (p : bool) (l : Z) :
  p && (l <=? 0) = true <-> p = true /\ l <= 0.
Proof. rewrite andb_true_iff, Z.leb_le. reflexivity. Qed.

Lemma paginate_limit_tail_iff (p : bool) (l n : Z) :
  p && (l <=? 0) && (n <=? 0) = true <-> p = true /\ l <= 0 /\ n <= 0.
Proof. rewrite !andb_true_iff, !Z.leb_le. tauto. Qed.

Lemma logGetByID_opts_soft (h : logGetByIDHandler.t) :
  data.SoftSizeLimit (logGetByIDHandler.opts h)
  = if logGetByIDHandler.paginate h && (logGetByIDHandler.limit h <=? 0)
    then softSizeLimit else 0.
Proof. unfold logGetByIDHandler.opts; simpl. destruct (_ && _); reflexivity. Qed.

Lemma logGetByTaskID_opts_soft (h : logGetByTaskIDHandler.t) :
  data.SoftSizeLimit (logGetByTaskIDHandler.opts h)
  = if logGetByTaskIDHandler.paginate h && (logGetByTaskIDHandler.limit h <=? 0)
       && (logGetByTaskIDHandler.n h <=? 0)
    then softSizeLimit else 0.
Proof. unfold logGetByTaskIDHandler.opts; simpl. destruct (_ && _); reflexivity. Qed.

Lemma logGetByTestName_opts_soft (h : logGetByTestNameHandler.t) :
  data.SoftSizeLimit (logGetByTestNameHandler.opts h)
  = if logGetByTestNameHandler.paginate h && (logGetByTestNameHandler.limit h <=? 0)
    then softSizeLimit else 0.
Proof. unfold logGetByTestNameHandler.opts; simpl. destruct (_ && _); reflexivity. Qed.

Lemma logGroup_opts_soft (h : logGroupHandler.t) :
  data.SoftSizeLimit (logGroupHandler.opts h)
  = if logGroupHandler.paginate h && (logGroupHandler.limit h <=? 0)
    then softSizeLimit else 0.
Proof. unfold logGroupHandler.opts; simpl. destruct (_ && _); reflexivity. Qed.

(** Every call of the grouped-log handler carries the options [Run] starts
    from, up to the time range. *)
Lemma logGroup_calls_opts (h : logGroupHandler.t) :
  (run sc (logGroupHandler.Run h)).2 <> []
  /\ Forall (fun c => exists tr,
               callOpts c = data.set_TimeRange (logGroupHandler.opts h) tr)
       (run sc (logGroupHandler.Run h)).2.
Proof.
  pose proof (logGroup_calls sc h) as E; cbv zeta in E. rewrite E.
  assert (Hid : logGroupHandler.opts h
                = data.set_TimeRange (logGroupHandler.opts h)
                    (data.TimeRange (logGroupHandler.opts h)))
    by (destruct (logGroupHandler.opts h); reflexivity).
  destruct (util.IsZero _); [destruct (data.metaErr _)|]; split; try discriminate;
    repeat constructor; simpl; eauto.
Qed.

(** C3. On every paginating endpoint the options handed to the store select
    soft-size retrieval, with the cap of exactly 10 MiB, if and only if the
    request asked to paginate, its limit is not positive and, on the by-task
    endpoint, its tail count is not positive; a positive limit always
    leaves the soft size limit unset. *)
Theorem soft_size_limit_selected_iff :
  softSizeLimit = 10 * 1024 * 1024
  /\ (forall h : logGetByIDHandler.t,
        let calls := (run sc (logGetByIDHandler.Run h)).2 in
        calls <> []
        /\ Forall (fun c => softSizeSelectedIff
                     (logGetByIDHandler.paginate h = true
                      /\ logGetByIDHandler.limit h <= 0)
                     (callOpts c)) calls
        /\ (0 < logGetByIDHandler.limit h ->
            Forall (fun c => data.SoftSizeLimit (callOpts c) = 0) calls))
  /\ (forall h : logGetByTaskIDHandler.t,
        let calls := (run sc (logGetByTaskIDHandler.Run h)).2 in
        calls <> []
        /\ Forall (fun c => softSizeSelectedIff
                     (logGetByTaskIDHandler.paginate h = true
                      /\ logGetByTaskIDHandler.limit h <= 0
                      /\ logGetByTaskIDHandler.n h <= 0)
                     (callOpts c)) calls
        /\ (0 < logGetByTaskIDHandler.limit h ->
            Forall (fun c => data.SoftSizeLimit (callOpts c) = 0) calls))
  /\ (forall h : logGetByTestNameHandler.t,
        let calls := (run sc (logGetByTestNameHandler.Run h)).2 in
        calls <> []
        /\ Forall (fun c => softSizeSelectedIff
                     (logGetByTestNameHandler.paginate h = true
                      /\ logGetByTestNameHandler.limit h <= 0)
                     (callOpts c)) calls
        /\ (0 < logGetByTestNameHandler.limit h ->
            Forall (fun c => data.SoftSizeLimit (callOpts c) = 0) calls))
  /\ (forall h : logGroupHandler.t,
        let calls := (run sc (logGroupHandler.Run h)).2 in
        calls <> []
        /\ Forall (fun c => softSizeSelectedIff
                     (logGroupHandler.paginate h = true
                      /\ logGroupHandler.limit h <= 0)
                     (callOpts c)) calls
        /\ (0 < logGroupHandler.limit h ->
            Forall (fun c => data.SoftSizeLimit (callOpts c) = 0) calls)).
Proof.
  split; [reflexivity|].
  split; [|split; [|split]]; intros h calls; subst calls.
  - rewrite logGetByID_calls. split; [discriminate|split].
    + constructor; [|constructor]. eapply softSizeSelectedIff_if;
        [apply paginate_limit_iff|apply logGetByID_opts_soft].
    + intros Hl. constructor; [|constructor]. simpl. rewrite logGetByID_opts_soft.
      destruct (Z.leb_spec (logGetByIDHandler.limit h) 0); [lia|].
      rewrite andb_false_r; reflexivity.
  - rewrite logGetByTaskID_calls. split; [discriminate|split].
    + constructor; [|constructor]. eapply softSizeSelectedIff_if;
        [apply paginate_limit_tail_iff|apply logGetByTaskID_opts_soft].
    + intros Hl. constructor; [|constructor]. simpl. rewrite logGetByTaskID_opts_soft.
      destruct (Z.leb_spec (logGetByTaskIDHandler.limit h) 0); [lia|].
      rewrite andb_false_r; reflexivity.
  - rewrite logGetByTestName_calls. split; [discriminate|split].
    + constructor; [|constructor]. eapply softSizeSelectedIff_if;
        [apply paginate_limit_iff|apply logGetByTestName_opts_soft].
    + intros Hl. constructor; [|constructor]. simpl. rewrite logGetByTestName_opts_soft.
      destruct (Z.leb_spec (logGetByTestNameHandler.limit h) 0); [lia|].
      rewrite andb_false_r; reflexivity.
  - split; [apply logGroup_calls_opts|split].
    + eapply Forall_impl; [apply logGroup_calls_opts|].
      intros c [tr ->]. eapply softSizeSelectedIff_if;
        [apply paginate_limit_iff|simpl; apply logGroup_opts_soft].
    + intros Hl. eapply Forall_impl; [apply logGroup_calls_opts|].
      intros c [tr ->]; simpl. rewrite logGroup_opts_soft.
      destruct (Z.leb_spec (logGroupHandler.limit h) 0); [lia|].
      rewrite andb_false_r; reflexivity.
Qed.

End Modes.

Section ModesExclusive.
Context `{Externals}.
Variable sc : data.Connector.

Ltac modes_cases :=
  unfold activeModes, explicitLimitActive, tailActive, softSizeActive, softSizeLimit;
  repeat match goal with
         | |- context [?a <=? ?b] => destruct (Z.leb_spec a b)
         end;
  rewrite ?andb_true_r, ?andb_false_r; simpl;
  repeat match goal with
         | |- context [if ?b then _ else _] =>
             lazymatch b with
             | (_ <? _) => fail
             | _ => destruct b; simpl
             end
         end;
  repeat match goal with
         | |- context [?a <? ?b] => destruct (Z.ltb_spec a b); simpl
         end;
  repeat (split || intro); try discriminate; try reflexivity; try lia.

Lemma logGetByID_modes (h : logGetByIDHandler.t) :
  (activeModes (logGetByIDHandler.opts h) <= 1)%nat.
Proof.
  unfold activeModes, explicitLimitActive, tailActive, softSizeActive.
  rewrite logGetByID_opts_soft.
  replace (data.Limit (logGetByIDHandler.opts h)) with (logGetByIDHandler.limit h)
    by (unfold logGetByIDHandler.opts; destruct (_ && _); reflexivity).
  replace (data.Tail (logGetByIDHandler.opts h)) with 0
    by (unfold logGetByIDHandler.opts; destruct (_ && _); reflexivity).
  modes_cases.
Qed.

Lemma logGetByTestName_modes (h : logGetByTestNameHandler.t) :
  (activeModes (logGetByTestNameHandler.opts h) <= 1)%nat.
Proof.
  unfold activeModes, explicitLimitActive, tailActive, softSizeActive.
  rewrite logGetByTestName_opts_soft.
  replace (data.Limit (logGetByTestNameHandler.opts h))
    with (logGetByTestNameHandler.limit h)
    by (unfold logGetByTestNameHandler.opts; destruct (_ && _); reflexivity).
  replace (data.Tail (logGetByTestNameHandler.opts h)) with 0
    by (unfold logGetByTestNameHandler.opts; destruct (_ && _); reflexivity).
  modes_cases.
Qed.

Lemma logGroup_modes (h : logGroupHandler.t) (tr : util.TimeRange) :
  (activeModes (data.set_TimeRange (logGroupHandler.opts h) tr) <= 1)%nat.
Proof.
  unfold activeModes, explicitLimitActive, tailActive, softSizeActive; simpl.
  rewrite logGroup_opts_soft.
  replace (data.Limit (logGroupHandler.opts h)) with (logGroupHandler.limit h)
    by (unfold logGroupHandler.opts; destruct (_ && _); reflexivity).
  replace (data.Tail (logGroupHandler.opts h)) with 0
    by (unfold logGroupHandler.opts; destruct (_ && _); reflexivity).
  modes_cases.
Qed.

Lemma logGetByTaskID_modes (h : logGetByTaskIDHandler.t) :
  let o := logGetByTaskIDHandler.opts h in
  data.Limit o = logGetByTaskIDHandler.limit h
  /\ data.Tail o = logGetByTaskIDHandler.n h
  /\ (softSizeActive o = true -> explicitLimitActive o = false /\ tailActive o = false)
  /\ (activeModes o = 2%nat <->
      0 < logGetByTaskIDHandler.limit h /\ 0 < logGetByTaskIDHandler.n h).
Proof.
  intros o.
  assert (El : data.Limit o = logGetByTaskIDHandler.limit h)
    by (unfold o, logGetByTaskIDHandler.opts; destruct (_ && _); reflexivity).
  assert (Et : data.Tail o = logGetByTaskIDHandler.n h)
    by (unfold o, logGetByTaskIDHandler.opts; destruct (_ && _); reflexivity).
  split; [exact El|]. split; [exact Et|].
  unfold activeModes, explicitLimitActive, tailActive, softSizeActive.
  rewrite El, Et. unfold o. rewrite logGetByTaskID_opts_soft.
  split; modes_cases.
Qed.

(** C4, as the code has it.  Soft-size retrieval is never active together
    with a count limit or a tail count, and on the endpoints without a tail
    count at most one mode is active in the options handed to the store.  On
    the by-task endpoint the limit and the tail count are both handed over
    as parsed, so both are active exactly when both are positive. *)
Theorem soft_size_excludes_limit_and_tail :
  (forall h : logGetByIDHandler.t,
     Forall (fun c => (activeModes (callOpts c) <= 1)%nat)
       (run sc (logGetByIDHandler.Run h)).2)
  /\ (forall h : logGetByTestNameHandler.t,
        Forall (fun c => (activeModes (callOpts c) <= 1)%nat)
          (run sc (logGetByTestNameHandler.Run h)).2)
  /\ (forall h : logGroupHandler.t,
        Forall (fun c => (activeModes (callOpts c) <= 1)%nat)
          (run sc (logGroupHandler.Run h)).2)
  /\ (forall h : logGetByTaskIDHandler.t,
        Forall (fun c =>
                  let o := callOpts c in
                  data.Limit o = logGetByTaskIDHandler.limit h
                  /\ data.Tail o = logGetByTaskIDHandler.n h
                  /\ (softSizeActive o = true ->
                      explicitLimitActive o = false /\ tailActive o = false)
                  /\ (activeModes o = 2%nat <->
                      0 < logGetByTaskIDHandler.limit h
                      /\ 0 < logGetByTaskIDHandler.n h))
          (run sc (logGetByTaskIDHandler.Run h)).2).
Proof.
  split; [|split; [|split]]; intros h.
  - rewrite logGetByID_calls. constructor; [|constructor]. apply logGetByID_modes.
  - rewrite logGetByTestName_calls. constructor; [|constructor].
    apply logGetByTestName_modes.
  - eapply Forall_impl; [apply logGroup_calls_opts|].
    intros c [tr ->]. apply logGroup_modes.
  - rewrite logGetByTaskID_calls. constructor; [|constructor].
    apply logGetByTaskID_modes.
Qed.

End ModesExclusive.

Section Group.
Context `{Externals}.
Variable sc : data.Connector.


Lemma logGroup_opts_Tags (h : logGroupHandler.t) :
  data.Tags (logGroupHandler.opts h)
  = (logGroupHandler.tags h ++ [logGroupHandler.groupID h])%list.
Proof. unfold logGroupHandler.opts. destruct (_ && _); reflexivity. Qed.

(** C6. Every call the grouped-log handler makes carries as tags the explicit
    tags of the request followed by the group identifier as the last
    element; the group identifier is among the tags also when the request
    names no tag. *)
Theorem group_tags_end_with_group_id (h0 : logGroupHandler.t) (r : Request) :
  let h := (logGroupHandler.Parse h0 r).1 in
  let calls := (run sc (logGroupHandler.Run h)).2 in
  logGroupHandler.tags h = Values_index (Query r) tags
  /\ logGroupHandler.groupID h = GetVar r "group_id"
  /\ calls <> []
  /\ Forall (fun c =>
               data.Tags (callOpts c)
               = (Values_index (Query r) tags ++ [GetVar r "group_id"])%list
               /\ last (data.Tags (callOpts c)) = Some (GetVar r "group_id"))
       calls
  /\ (Query r !! tags = None ->
      Forall (fun c => data.Tags (callOpts c) = [GetVar r "group_id"]) calls).
Proof.
  intros h calls.
  assert (Et : logGroupHandler.tags h = Values_index (Query r) tags).
  { unfold h, logGroupHandler.Parse.
    destruct (_ || _); [destruct (parseTimeRange _ _ _)|];
      (destruct (Values_index _ rest.limit); [|destruct (Atoi _)]); reflexivity. }
  assert (Eg : logGroupHandler.groupID h = GetVar r "group_id").
  { unfold h, logGroupHandler.Parse.
    destruct (_ || _); [destruct (parseTimeRange _ _ _)|];
      (destruct (Values_index _ rest.limit); [|destruct (Atoi _)]); reflexivity. }
  assert (Hc : Forall (fun c =>
                 data.Tags (callOpts c)
                 = (Values_index (Query r) tags ++ [GetVar r "group_id"])%list) calls).
  { eapply Forall_impl; [apply logGroup_calls_opts|].
    intros c [tr ->]; simpl. rewrite logGroup_opts_Tags, Et, Eg. reflexivity. }
  split; [exact Et|]. split; [exact Eg|].
  split; [apply logGroup_calls_opts|]. split.
  - eapply Forall_impl; [exact Hc|]. intros c ->. split; [reflexivity|].
    apply last_snoc.
  - intros Hn. eapply Forall_impl; [exact Hc|]. intros c ->.
    unfold Values_index. rewrite Hn. reflexivity.
Qed.

End Group.

Section Inference.
Context `{Externals}.
Variable sc : data.Connector.

(** The run of the grouped-log handler, case by case. *)
Lemma logGroup_run (h : logGroupHandler.t) :
  let o := logGroupHandler.opts h in
  let m := data.FindLogMetadataByTestName o in
  let ans := data.answerMeta sc [] m in
  let o' := data.set_TimeRange o
              (logGroupHandler.inferRange (logGroupHandler.tr h) (data.logs ans)) in
  run sc (logGroupHandler.Run h) =
    if util.IsZero (logGroupHandler.tr h) then
      match data.metaErr ans with
      | Some err =>
          (gimlet.MakeJSONErrorResponder
             (withMessage err
                ("Error getting log metadata by test name '"
                 ++ logGroupHandler.name h ++ "'")),
           [data.MetaCall m])
      | None =>
          ((exec sc [data.MetaCall m] (logGroupHandler.findGroupedLogs h o')).1,
           [data.MetaCall m; data.LogsCall (data.FindGroupedLogs o')])
      end
    else
      ((exec sc [] (logGroupHandler.findGroupedLogs h o)).1,
       [data.LogsCall (data.FindGroupedLogs o)]).
Proof.
  intros o m ans o'. unfold run, logGroupHandler.Run.
  rewrite logGroup_opts_TimeRange.
  destruct (util.IsZero _); simpl.
  - fold o m ans. destruct (data.metaErr ans); simpl; [reflexivity|].
    fold o'. destruct (data.logsErr _); reflexivity.
  - fold o. destruct (data.logsErr _); reflexivity.
Qed.

Lemma logGroup_Parse_tr (h0 : logGroupHandler.t) (r : Request) :
  logGroupHandler.tr (logGroupHandler.Parse h0 r).1
  = if negb (bool_decide (Values_Get (Query r) logStartAt = ""))
       || negb (bool_decide (Values_Get (Query r) logEndAt = ""))
    then (parseTimeRange (Query r) logStartAt logEndAt).1
    else logGroupHandler.tr h0.
Proof.
  unfold logGroupHandler.Parse.
  destruct (_ || _); [destruct (parseTimeRange _ _ _)|];
    (destruct (Values_index _ rest.limit); [|destruct (Atoi _)]); reflexivity.
Qed.

End Inference.

Section Pages.
Context `{Externals}.
Variable sc : data.Connector.

Lemma newBuildloggerResponder_paginated (data : list Byte.byte) (last next : Time) :
  let pages :=
    gimlet.mkPages (Some (navPage "prev" (Time_Format last RFC3339)))
      (Some (navPage "next" (Time_Format next RFC3339))) in
  newBuildloggerResponder data last next true =
    match ResponsePages_Validate pages with
    | None => gimlet.mkResponder (gimlet.textBody data) (Some pages)
    | Some err =>
        gimlet.MakeJSONErrorResponder
          (withMessage err "problem setting response pages")
    end.
Proof.
  intros pages. unfold newBuildloggerResponder, SetPages.
  change (ResponsePages_Validate _) with (ResponsePages_Validate pages).
  destruct (ResponsePages_Validate pages); reflexivity.
Qed.

Lemma logGroup_findGroupedLogs hist (h : logGroupHandler.t) (o : data.BuildloggerOptions) :
  let ans := data.answerLogs sc hist (data.FindGroupedLogs o) in
  (exec sc hist (logGroupHandler.findGroupedLogs h o)).1 =
    match data.logsErr ans with
    | Some err =>
        gimlet.MakeJSONErrorResponder
          (withMessage err
             ("Error getting grouped logs with task_id/test_name/group_id '"
              ++ logGroupHandler.id h ++ "/" ++ logGroupHandler.name h ++ "/"
              ++ logGroupHandler.groupID h ++ "'"))
    | None =>
        newBuildloggerResponder (data.logData ans)
          (util.StartAt (logGroupHandler.tr h)) (data.next ans) (data.paginated ans)
    end.
Proof.
  intros ans. unfold logGroupHandler.findGroupedLogs; simpl. fold ans.
  destruct (data.logsErr ans); reflexivity.
Qed.

(** C8. A payload response whose result the store reports as truncated
    carries exactly two navigation descriptors, [prev] keyed by the RFC3339
    form of the start of the requested range and [next] keyed by the RFC3339
    form of the store's continuation instant, both over the fixed base
    location and the parameter names [start] and [limit]; when the pages
    are refused the response is the error and nothing else; a result that
    is not truncated carries no pages.  Every payload handler builds its
    response this way from the start of the range it parsed and from the
    store's answer. *)
Theorem paginated_response_pages :
  (forall data last next,
     newBuildloggerResponder data last next false
     = gimlet.mkResponder (gimlet.textBody data) None)
  /\ (forall data last next,
        let pages :=
          gimlet.mkPages (Some (navPage "prev" (Time_Format last RFC3339)))
            (Some (navPage "next" (Time_Format next RFC3339))) in
        newBuildloggerResponder data last next true =
          match ResponsePages_Validate pages with
          | None => gimlet.mkResponder (gimlet.textBody data) (Some pages)
          | Some err =>
              gimlet.MakeJSONErrorResponder
                (withMessage err "problem setting response pages")
          end)
  /\ (forall h : logGetByIDHandler.t,
        let ans := data.answerLogs sc []
                     (data.FindLogByID (logGetByIDHandler.opts h)) in
        data.logsErr ans = None ->
        (run sc (logGetByIDHandler.Run h)).1
        = newBuildloggerResponder (data.logData ans)
            (util.StartAt (logGetByIDHandler.tr h)) (data.next ans)
            (data.paginated ans))
  /\ (forall h : logGetByTaskIDHandler.t,
        let ans := data.answerLogs sc []
                     (data.FindLogsByTaskID (logGetByTaskIDHandler.opts h)) in
        data.logsErr ans = None ->
        (run sc (logGetByTaskIDHandler.Run h)).1
        = newBuildloggerResponder (data.logData ans)
            (util.StartAt (logGetByTaskIDHandler.tr h)) (data.next ans)
            (data.paginated ans))
  /\ (forall h : logGetByTestNameHandler.t,
        let ans := data.answerLogs sc []
                     (data.FindLogsByTestName (logGetByTestNameHandler.opts h)) in
        data.logsErr ans = None ->
        (run sc (logGetByTestNameHandler.Run h)).1
        = newBuildloggerResponder (data.logData ans)
            (util.StartAt (logGetByTestNameHandler.tr h)) (data.next ans)
            (data.paginated ans))
  /\ (forall h : logGroupHandler.t,
        let o := logGroupHandler.opts h in
        let m := data.FindLogMetadataByTestName o in
        let meta := data.answerMeta sc [] m in
        let o' := data.set_TimeRange o
                    (logGroupHandler.inferRange (logGroupHandler.tr h)
                       (data.logs meta)) in
        let ans :=
          if util.IsZero (logGroupHandler.tr h)
          then data.answerLogs sc [data.MetaCall m] (data.FindGroupedLogs o')
          else data.answerLogs sc [] (data.FindGroupedLogs o) in
        (util.IsZero (logGroupHandler.tr h) = true -> data.metaErr meta = None) ->
        data.logsErr ans = None ->
        (run sc (logGroupHandler.Run h)).1
        = newBuildloggerResponder (data.logData ans)
            (util.StartAt (logGroupHandler.tr h)) (data.next ans)
            (data.paginated ans)).
Proof.
  split; [reflexivity|].
  split; [apply newBuildloggerResponder_paginated|].
  split; [|split; [|split]].
  - intros h ans E. unfold run, logGetByIDHandler.Run; simpl. fold ans.
    rewrite E. reflexivity.
  - intros h ans E. unfold run, logGetByTaskIDHandler.Run; simpl. fold ans.
    rewrite E. reflexivity.
  - intros h ans E. unfold run, logGetByTestNameHandler.Run; simpl. fold ans.
    rewrite E. reflexivity.
  - intros h o m meta o' ans Hm E.
    pose proof (logGroup_run sc h) as R; cbv zeta in R. fold o m meta o' in R.
    rewrite R; clear R. unfold ans in *; clear ans.
    destruct (util.IsZero (logGroupHandler.tr h)).
    + rewrite (Hm eq_refl). cbn [fst].
      pose proof (logGroup_findGroupedLogs [data.MetaCall m] h o') as F.
      cbv zeta in F. rewrite F, E. reflexivity.
    + cbn [fst]. pose proof (logGroup_findGroupedLogs [] h o) as F.
      cbv zeta in F. rewrite F, E. reflexivity.
Qed.

End Pages.

Section GroupCursor.
Context `{Externals}.
Variable sc : data.Connector.

(** C9. For a grouped-log request that gives neither bound, whose metadata
    and grouped logs are found and whose result is truncated, the store is
    asked for the inferred range, while the response is built from the
    start of the range the handler parsed, which is still the zero instant:
    the key of [prev], when pages are attached, is the RFC3339 form of the
    zero instant. *)
Theorem group_prev_key_is_zero_instant (r : Request) :
  Values_Get (Query r) logStartAt = "" ->
  Values_Get (Query r) logEndAt = "" ->
  let h := (logGroupHandler.Parse logGroupHandler.Factory r).1 in
  let o := logGroupHandler.opts h in
  let m := data.FindLogMetadataByTestName o in
  let ans := data.answerMeta sc [] m in
  let inferred := logGroupHandler.inferRange util.zero (data.logs ans) in
  let o' := data.set_TimeRange o inferred in
  let res := data.answerLogs sc [data.MetaCall m] (data.FindGroupedLogs o') in
  data.metaErr ans = None ->
  data.logsErr res = None ->
  data.paginated res = true ->
  let resp := (run sc (logGroupHandler.Run h)).1 in
  let pages :=
    gimlet.mkPages (Some (navPage "prev" (Time_Format zeroTime RFC3339)))
      (Some (navPage "next" (Time_Format (data.next res) RFC3339))) in
  logGroupHandler.tr h = util.zero
  /\ (run sc (logGroupHandler.Run h)).2
     = [data.MetaCall m; data.LogsCall (data.FindGroupedLogs o')]
  /\ data.TimeRange o' = inferred
  /\ resp = newBuildloggerResponder (data.logData res) zeroTime (data.next res) true
  /\ (forall p, gimlet.Pages resp = Some p ->
        gimlet.Prev p = Some (navPage "prev" (Time_Format zeroTime RFC3339)))
  /\ (ResponsePages_Validate pages = None -> gimlet.Pages resp = Some pages).
Proof.
  intros Hs He h o m ans inferred o' res Hm Hl Hp resp pages.
  assert (Etr : logGroupHandler.tr h = util.zero).
  { unfold h. rewrite logGroup_Parse_tr, Hs, He. reflexivity. }
  pose proof (logGroup_run sc h) as E; cbv zeta in E.
  fold o m ans in E. rewrite Etr in E. fold inferred o' in E.
  change (util.IsZero util.zero) with true in E. cbv iota in E.
  rewrite Hm in E.
  pose proof (logGroup_findGroupedLogs sc [data.MetaCall m] h o') as F.
  cbv zeta in F. fold res in F. rewrite Hl, Hp, Etr in F. simpl in F.
  assert (Er : resp = newBuildloggerResponder (data.logData res) zeroTime
                        (data.next res) true).
  { unfold resp. rewrite E. simpl. exact F. }
  split; [exact Etr|]. split; [rewrite E; reflexivity|].
  split; [reflexivity|]. split; [exact Er|].
  rewrite Er, newBuildloggerResponder_paginated. fold pages.
  destruct (ResponsePages_Validate pages); simpl.
  - split; [intros p Hp'; discriminate|intros Hv; discriminate].
  - split; [intros p Hp'; injection Hp' as <-; reflexivity|reflexivity].
Qed.

End GroupCursor.

Section Range.

Lemma fold_min_spec (l : list Z) (a : Z) :
  let m := fold_left Z.min l a in
  In m (a :: l) /\ (forall x, In x (a :: l) -> m <= x).
Proof.
  revert a. induction l as [|b l IH]; intros a; simpl.
  - split; [left; reflexivity|]. intros x [<-|[]]. lia.
  - destruct (IH (Z.min a b)) as [Hin Hle]. split.
    + destruct Hin as [E|Hin]; [|right; right; exact Hin].
      rewrite <- E. destruct (Z.min_spec a b) as [[_ ->]|[_ ->]]; auto.
    + intros x [<-|[<-|Hx]].
      * specialize (Hle (Z.min a b) (or_introl eq_refl)). lia.
      * specialize (Hle (Z.min a b) (or_introl eq_refl)). lia.
      * apply Hle. right. exact Hx.
Qed.

Lemma fold_max_spec (l : list Z) (a : Z) :
  let m := fold_left Z.max l a in
  In m (a :: l) /\ (forall x, In x (a :: l) -> x <= m).
Proof.
  revert a. induction l as [|b l IH]; intros a; simpl.
  - split; [left; reflexivity|]. intros x [<-|[]]. lia.
  - destruct (IH (Z.max a b)) as [Hin Hle]. split.
    + destruct Hin as [E|Hin]; [|right; right; exact Hin].
      rewrite <- E. destruct (Z.max_spec a b) as [[_ ->]|[_ ->]]; auto.
    + intros x [<-|[<-|Hx]].
      * specialize (Hle (Z.max a b) (or_introl eq_refl)). lia.
      * specialize (Hle (Z.max a b) (or_introl eq_refl)). lia.
      * apply Hle. right. exact Hx.
Qed.

Lemma minCreatedAt_spec (logs : list model.APILog) :
  logs <> [] ->
  In (minCreatedAt logs) (map createdInstant logs)
  /\ (forall x, In x (map createdInstant logs) -> minCreatedAt logs <= x).
Proof.
  destruct logs as [|l ls]; [congruence|]. intros _.
  exact (fold_min_spec (map createdInstant ls) (createdInstant l)).
Qed.

Lemma maxCompletedAt_spec (logs : list model.APILog) :
  logs <> [] ->
  In (maxCompletedAt logs) (map completedInstant logs)
  /\ (forall x, In x (map completedInstant logs) -> x <= maxCompletedAt logs).
Proof.
  destruct logs as [|l ls]; [congruence|]. intros _.
  exact (fold_max_spec (map completedInstant ls) (completedInstant l)).
Qed.

Lemma minCreatedAt_Permutation (logs logs' : list model.APILog) :
  logs <> [] -> Permutation logs logs' -> minCreatedAt logs = minCreatedAt logs'.
Proof.
  intros Hne Hp.
  assert (Hne' : logs' <> []).
  { intros ->. apply Permutation_sym, Permutation_nil in Hp. contradiction. }
  pose proof (Permutation_map createdInstant Hp) as Hm.
  destruct (minCreatedAt_spec logs Hne) as [I1 L1].
  destruct (minCreatedAt_spec logs' Hne') as [I2 L2].
  apply Z.le_antisymm.
  - apply L1. eapply Permutation_in; [apply Permutation_sym; exact Hm|exact I2].
  - apply L2. eapply Permutation_in; [exact Hm|exact I1].
Qed.

Lemma maxCompletedAt_Permutation (logs logs' : list model.APILog) :
  logs <> [] -> Permutation logs logs' -> maxCompletedAt logs = maxCompletedAt logs'.
Proof.
  intros Hne Hp.
  assert (Hne' : logs' <> []).
  { intros ->. apply Permutation_sym, Permutation_nil in Hp. contradiction. }
  pose proof (Permutation_map completedInstant Hp) as Hm.
  destruct (maxCompletedAt_spec logs Hne) as [I1 L1].
  destruct (maxCompletedAt_spec logs' Hne') as [I2 L2].
  apply Z.le_antisymm.
  - apply L2. eapply Permutation_in; [exact Hm|exact I1].
  - apply L1. eapply Permutation_in; [apply Permutation_sym; exact Hm|exact I2].
Qed.

(** The end of the range is a running maximum, from whatever it starts at. *)
Lemma inferRange_EndAt (logs : list model.APILog) (tr : util.TimeRange) :
  instant (util.EndAt (logGroupHandler.inferRange tr logs))
  = fold_left Z.max (map completedInstant logs) (instant (util.EndAt tr)).
Proof.
  revert tr. induction logs as [|l ls IH]; intros tr; [reflexivity|].
  unfold logGroupHandler.inferRange in *; simpl. rewrite IH. f_equal.
  unfold logGroupHandler.inferStep, Time_Before, completedInstant.
  destruct (_ || _); simpl;
    destruct (Z.ltb_spec (instant (util.EndAt tr)) (instant (model.CompletedAt l)));
    simpl; lia.
Qed.

(** The start of the range is a running minimum once it is not the zero
    instant, as long as no entry was created at the zero instant. *)
Lemma inferRange_StartAt (logs : list model.APILog) (tr : util.TimeRange) :
  instant (util.StartAt tr) <> 0 ->
  Forall (fun l => createdInstant l <> 0) logs ->
  instant (util.StartAt (logGroupHandler.inferRange tr logs))
  = fold_left Z.min (map createdInstant logs) (instant (util.StartAt tr)).
Proof.
  revert tr. induction logs as [|l ls IH]; intros tr Hs Hall; [reflexivity|].
  apply Forall_cons in Hall as [Hl Hall].
  unfold logGroupHandler.inferRange in *; simpl.
  assert (E : instant (util.StartAt (logGroupHandler.inferStep tr l))
              = Z.min (instant (util.StartAt tr)) (createdInstant l)).
  { unfold logGroupHandler.inferStep, Time_After, Time_IsZero, createdInstant.
    destruct (Z.ltb_spec (instant (model.CreatedAt l)) (instant (util.StartAt tr)));
      destruct (Z.eqb_spec (instant (util.StartAt tr)) 0); simpl;
      destruct (Time_Before _ _); simpl; lia. }
  rewrite IH; [rewrite E; reflexivity| |exact Hall].
  rewrite E. unfold createdInstant in *. lia.
Qed.

Lemma fold_max_le (l : list Z) (a b : Z) :
  a <= b -> fold_left Z.max l a <= fold_left Z.max l b.
Proof.
  revert a b. induction l as [|x l IH]; intros a b Hab; simpl; [exact Hab|].
  apply IH. lia.
Qed.

Lemma fold_max_from_zero (l : list Z) (a : Z) :
  0 <= fold_left Z.max l a ->
  fold_left Z.max l (Z.max 0 a) = fold_left Z.max l a.
Proof.
  revert a. induction l as [|x l IH]; intros a Hm; simpl in *; [lia|].
  replace (Z.max (Z.max 0 a) x) with (Z.max 0 (Z.max a x)) by lia.
  apply IH. exact Hm.
Qed.

End Range.

Section RangeClaim.

(** The first entry always sets the start of a zero range. *)
Lemma inferStep_zero (tr0 : util.TimeRange) (l : model.APILog) :
  util.IsZero tr0 = true ->
  logGroupHandler.inferStep tr0 l
  = util.mkTimeRange (model.CreatedAt l)
      (if 0 <? completedInstant l then model.CompletedAt l else util.EndAt tr0).
Proof.
  intros Hz. apply andb_prop in Hz as [He Hs].
  unfold logGroupHandler.inferStep. rewrite Hs, orb_true_r. simpl.
  unfold Time_Before, completedInstant; simpl.
  unfold Time_IsZero in He. apply Z.eqb_eq in He. rewrite He.
  destruct (0 <? _); reflexivity.
Qed.

Lemma inferRange_min_max (tr0 : util.TimeRange) (logs : list model.APILog) :
  util.IsZero tr0 = true ->
  logs <> [] ->
  Forall (fun l => createdInstant l <> 0) logs ->
  Exists (fun l => 0 <= completedInstant l) logs ->
  let tr := logGroupHandler.inferRange tr0 logs in
  instant (util.StartAt tr) = minCreatedAt logs
  /\ instant (util.EndAt tr) = maxCompletedAt logs.
Proof.
  intros Hz Hne Hc He tr.
  assert (Hmax : 0 <= maxCompletedAt logs).
  { apply List.Exists_exists in He as (l & Hin & Hl).
    destruct (maxCompletedAt_spec logs Hne) as [_ Hub].
    etransitivity; [exact Hl|]. apply Hub, in_map, Hin. }
  destruct logs as [|l ls]; [congruence|].
  apply Forall_cons in Hc as [Hl Hls].
  change tr
    with (logGroupHandler.inferRange (logGroupHandler.inferStep tr0 l) ls).
  rewrite (inferStep_zero tr0 l Hz). unfold minCreatedAt, maxCompletedAt. split.
  - rewrite inferRange_StartAt; [reflexivity|exact Hl|exact Hls].
  - rewrite inferRange_EndAt; simpl.
    replace (instant (if 0 <? completedInstant l
                      then model.CompletedAt l else util.EndAt tr0))
      with (Z.max 0 (completedInstant l)).
    + apply fold_max_from_zero. exact Hmax.
    + apply andb_prop in Hz as [Hz _]. apply Z.eqb_eq in Hz.
      unfold completedInstant.
      destruct (Z.ltb_spec 0 (instant (model.CompletedAt l))); simpl; lia.
Qed.

(** C2, as the code has it.  For a list of metadata entries that is not
    empty, in which no entry was created at the zero instant and some entry
    was completed at or after the zero instant, the range inferred from a
    zero range starts at the earliest creation instant and ends at the
    latest completion instant, and both instants are the same for every
    reordering of the list. *)
Theorem inferred_range_is_min_max (tr0 : util.TimeRange) (logs : list model.APILog) :
  util.IsZero tr0 = true ->
  logs <> [] ->
  Forall (fun l => createdInstant l <> 0) logs ->
  Exists (fun l => 0 <= completedInstant l) logs ->
  let tr := logGroupHandler.inferRange tr0 logs in
  instant (util.StartAt tr) = minCreatedAt logs
  /\ instant (util.EndAt tr) = maxCompletedAt logs
  /\ (forall logs', Permutation logs logs' ->
        let tr' := logGroupHandler.inferRange tr0 logs' in
        instant (util.StartAt tr') = instant (util.StartAt tr)
        /\ instant (util.EndAt tr') = instant (util.EndAt tr)).
Proof.
  intros Hz Hne Hc He tr.
  destruct (inferRange_min_max tr0 logs Hz Hne Hc He) as [Es Ee].
  split; [exact Es|]. split; [exact Ee|].
  intros logs' Hp tr'.
  assert (Hne' : logs' <> []).
  { intros ->. apply Permutation_sym, Permutation_nil in Hp. contradiction. }
  assert (Hc' : Forall (fun l => createdInstant l <> 0) logs').
  { rewrite List.Forall_forall in *. intros l Hin. apply Hc.
    eapply Permutation_in; [apply Permutation_sym; exact Hp|exact Hin]. }
  assert (He' : Exists (fun l => 0 <= completedInstant l) logs').
  { rewrite List.Exists_exists in *. destruct He as (l & Hin & Hl).
    exists l. split; [|exact Hl]. eapply Permutation_in; [exact Hp|exact Hin]. }
  destruct (inferRange_min_max tr0 logs' Hz Hne' Hc' He') as [Es' Ee'].
  unfold tr', tr. rewrite Es', Ee', Es, Ee.
  split; symmetry;
    [apply minCreatedAt_Permutation|apply maxCompletedAt_Permutation]; assumption.
Qed.

End RangeClaim.

(** ** The by-test-name metadata merge *)

Section Merge.
Variable sc : data.Connector.

(** C1, as the code has it.  When the test-scoped fetch succeeds the handler
    fetches again with the test name cleared.  When both succeed the response
    is the test-scoped entries followed by the global ones.  When the global
    fetch fails with a not-found error response the whole call fails, and so
    it does for an error that is no error response; for an error response of
    any other status the call succeeds with both lists. *)
Theorem meta_by_test_name_global_fetch (h : logMetaGetByTestNameHandler.t) :
  let o := logMetaGetByTestNameHandler.opts h in
  let m1 := data.FindLogMetadataByTestName o in
  let a1 := data.answerMeta sc [] m1 in
  let m2 := data.FindLogMetadataByTestName (data.set_TestName o "") in
  let a2 := data.answerMeta sc [data.MetaCall m1] m2 in
  let result := run sc (logMetaGetByTestNameHandler.Run h) in
  let failure err :=
    gimlet.MakeJSONErrorResponder
      (withMessage err
         ("Error getting log metadata by test name '"
          ++ logMetaGetByTestNameHandler.name h ++ "'")) in
  data.metaErr a1 = None ->
  result.2 = [data.MetaCall m1; data.MetaCall m2]
  /\ (data.metaErr a2 = None ->
      result.1 = gimlet.NewJSONResponse (data.logs a1 ++ data.logs a2)%list)
  /\ (forall msg,
        data.metaErr a2 = Some (ErrorResponse StatusNotFound msg) ->
        result.1 = failure (ErrorResponse StatusNotFound msg))
  /\ (forall code msg,
        code <> StatusNotFound ->
        data.metaErr a2 = Some (ErrorResponse code msg) ->
        result.1 = gimlet.NewJSONResponse (data.logs a1 ++ data.logs a2)%list)
  /\ (forall err,
        (asErrorResponse (Some err)).2 = false ->
        data.metaErr a2 = Some err ->
        result.1 = failure err).
Proof.
  intros o m1 a1 m2 a2 result failure H1.
  unfold result, run, logMetaGetByTestNameHandler.Run; simpl.
  fold o m1 a1. rewrite H1. simpl. fold m2 a2.
  destruct (data.metaErr a2) as [e|] eqn:E2.
  - assert (Hc : (exec sc [data.MetaCall m1; data.MetaCall m2]
                   (let '(StatusCode, _, ok) := asErrorResponse (Some e) in
                    if negb ok || (StatusCode =? StatusNotFound)
                    then mret (failure e)
                    else mret (gimlet.NewJSONResponse (data.logs a1 ++ data.logs a2)%list))).2
                 = [data.MetaCall m1; data.MetaCall m2]).
    { destruct e as [code msg| | | |]; simpl; try reflexivity.
      destruct (code =? StatusNotFound); reflexivity. }
    split; [exact Hc|]. split; [discriminate|]. split; [|split].
    + intros msg [= ->]. reflexivity.
    + intros code msg Hne [= ->]. simpl.
      destruct (Z.eqb_spec code StatusNotFound); [contradiction|reflexivity].
    + intros err Hno [= ->]. destruct err; simpl in *; try discriminate; reflexivity.
  - simpl. split; [reflexivity|]. split; [reflexivity|].
    split; [|split]; intros; discriminate.
Qed.

End Merge.

(** ** Parsing the query string *)

Section Parsing.
Context `{Externals}.

Lemma catcher_Resolve_entries (c : catcher) : entries (catcher_Resolve c) = c.
Proof. destruct c; reflexivity. Qed.

Lemma catcher_Add_app (c : catcher) (err : option error) :
  catcher_Add c err = (c ++ option_list err)%list.
Proof. destruct err; simpl; [reflexivity|]. rewrite app_nil_r. reflexivity. Qed.

(** C5, as the code has it.  Parsing the by-task query never stops at an
    error: the time range and each of [execution], [limit] and [n] are read
    whatever the others gave, and the error returned is made of the error
    of the time range, when [parseTimeRange] returns one, followed by one
    error for each of the three numeric parameters whose first value is no
    integer.  The time range adds at most one entry, however many of its
    bounds are malformed. *)
Theorem parse_by_task_collects_errors (h : logGetByTaskIDHandler.t) (r : Request) :
  let vals := Query r in
  let rangeErr := (parseTimeRange vals logStartAt logEndAt).2 in
  entries (logGetByTaskIDHandler.Parse h r).2
  = (option_list rangeErr ++ atoiErrors vals execution
     ++ atoiErrors vals limit ++ atoiErrors vals "n")%list
  /\ length (entries (logGetByTaskIDHandler.Parse h r).2)
     = (length (option_list rangeErr) + length (atoiErrors vals execution)
        + length (atoiErrors vals limit) + length (atoiErrors vals "n"))%nat
  /\ (length (option_list rangeErr) <= 1)%nat
  /\ ((logGetByTaskIDHandler.Parse h r).2 = None <->
      rangeErr = None /\ atoiErrors vals execution = []
      /\ atoiErrors vals limit = [] /\ atoiErrors vals "n" = []).
Proof.
  intros vals rangeErr.
  assert (E : (logGetByTaskIDHandler.Parse h r).2
              = catcher_Resolve
                  (option_list rangeErr ++ atoiErrors vals execution
                   ++ atoiErrors vals limit ++ atoiErrors vals "n")%list).
  { unfold logGetByTaskIDHandler.Parse, atoiErrors, rangeErr. fold vals.
    destruct (parseTimeRange vals logStartAt logEndAt) as [tr e0]; simpl.
    destruct (Values_index vals execution) as [|v1 ?]; [|destruct (Atoi v1) as [? e1]];
      (destruct (Values_index vals limit) as [|v2 ?]; [|destruct (Atoi v2) as [? e2]]);
      (destruct (Values_index vals "n") as [|v3 ?]; [|destruct (Atoi v3) as [? e3]]);
      simpl; rewrite ?catcher_Add_app, ?app_nil_r, <- ?app_assoc; reflexivity. }
  rewrite E, catcher_Resolve_entries. split; [reflexivity|].
  split; [rewrite !length_app; lia|].
  split; [destruct rangeErr; simpl; lia|].
  destruct rangeErr as [e0|]; simpl; [split; [discriminate|intros [[=] _]]|].
  destruct (atoiErrors vals execution); simpl;
    [|split; [discriminate|intros (_ & [=] & _)]].
  destruct (atoiErrors vals limit); simpl;
    [|split; [discriminate|intros (_ & _ & [=] & _)]].
  destruct (atoiErrors vals "n"); simpl;
    [|split; [discriminate|intros (_ & _ & _ & [=])]].
  split; [intros _; repeat split|reflexivity].
Qed.

End Parsing.

Section Repeated.
Context `{Externals}.

Lemma Values_index_insert_eq (vals : Values) (k : string) (l : list string) :
  Values_index (<[k := l]> vals) k = l.
Proof. unfold Values_index. rewrite lookup_insert_eq. reflexivity. Qed.

Lemma Values_index_insert_ne (vals : Values) (k k' : string) (l : list string) :
  k <> k' -> Values_index (<[k := l]> vals) k' = Values_index vals k'.
Proof. intros Hne. unfold Values_index. rewrite lookup_insert_ne by exact Hne. reflexivity. Qed.

(** [Get] only sees the first value. *)
Lemma Values_Get_insert_first (vals : Values) (k k' v : string) (more : list string) :
  Values_Get (<[k := v :: more]> vals) k' = Values_Get (<[k := [v]]> vals) k'.
Proof.
  unfold Values_Get. destruct (decide (k = k')) as [->|Hne].
  - rewrite !Values_index_insert_eq. reflexivity.
  - rewrite !Values_index_insert_ne by exact Hne. reflexivity.
Qed.

Ltac first_value k k' :=
  let E := fresh "E" in
  destruct (decide (k = k')) as [E|E];
  [rewrite <- ?E, !Values_index_insert_eq
  |rewrite !(Values_index_insert_ne _ k k') by exact E].

Lemma logGetByTaskID_Parse_entries (h : logGetByTaskIDHandler.t) (r : Request) :
  entries (logGetByTaskIDHandler.Parse h r).2
  = (option_list (parseTimeRange (Query r) logStartAt logEndAt).2
     ++ atoiErrors (Query r) execution ++ atoiErrors (Query r) limit
     ++ atoiErrors (Query r) "n")%list.
Proof.
  unfold logGetByTaskIDHandler.Parse, atoiErrors.
  destruct (parseTimeRange (Query r) logStartAt logEndAt) as [tr e0]; simpl.
  destruct (Values_index (Query r) execution) as [|v1 ?];
    [|destruct (Atoi v1) as [? e1]];
    (destruct (Values_index (Query r) limit) as [|v2 ?];
     [|destruct (Atoi v2) as [? e2]]);
    (destruct (Values_index (Query r) "n") as [|v3 ?];
     [|destruct (Atoi v3) as [? e3]]);
    simpl;
    rewrite ?catcher_Add_app, ?app_nil_r, <- ?app_assoc, ?catcher_Resolve_entries;
    reflexivity.
Qed.

(** What [Parse] makes of [limit] when its values are [v :: more], on the
    three endpoints that read no other number. *)
Lemma logGetByID_Parse_limit (h : logGetByIDHandler.t) (r : Request)
    (v : string) (more : list string) :
  Values_index (Query r) limit = v :: more ->
  logGetByIDHandler.limit (logGetByIDHandler.Parse h r).1 = (Atoi v).1
  /\ entries (logGetByIDHandler.Parse h r).2
     = (option_list (parseTimeRange (Query r) logStartAt logEndAt).2
        ++ option_list (Atoi v).2)%list.
Proof.
  intros E. unfold logGetByIDHandler.Parse. rewrite E.
  destruct (parseTimeRange (Query r) logStartAt logEndAt) as [tr e0]; simpl.
  destruct (Atoi v) as [i e1]; simpl.
  rewrite !catcher_Add_app, catcher_Resolve_entries. split; reflexivity.
Qed.

Lemma logGetByTestName_Parse_limit (h : logGetByTestNameHandler.t) (r : Request)
    (v : string) (more : list string) :
  Values_index (Query r) limit = v :: more ->
  logGetByTestNameHandler.limit (logGetByTestNameHandler.Parse h r).1 = (Atoi v).1
  /\ entries (logGetByTestNameHandler.Parse h r).2
     = (option_list (parseTimeRange (Query r) logStartAt logEndAt).2
        ++ option_list (Atoi v).2)%list.
Proof.
  intros E. unfold logGetByTestNameHandler.Parse. rewrite E.
  destruct (parseTimeRange (Query r) logStartAt logEndAt) as [tr e0]; simpl.
  destruct (Atoi v) as [i e1]; simpl.
  rewrite !catcher_Add_app, catcher_Resolve_entries. split; reflexivity.
Qed.

Lemma logGroup_Parse_limit (h : logGroupHandler.t) (r : Request)
    (v : string) (more : list string) :
  Values_index (Query r) limit = v :: more ->
  logGroupHandler.limit (logGroupHandler.Parse h r).1 = (Atoi v).1
  /\ entries (logGroupHandler.Parse h r).2
     = ((if bool_decide (Values_Get (Query r) logStartAt = "")
            && bool_decide (Values_Get (Query r) logEndAt = "")
         then []
         else option_list (parseTimeRange (Query r) logStartAt logEndAt).2)
        ++ option_list (Atoi v).2)%list.
Proof.
  intros E. unfold logGroupHandler.Parse. rewrite E.
  destruct (bool_decide (Values_Get (Query r) logStartAt = ""));
    destruct (bool_decide (Values_Get (Query r) logEndAt = "")); simpl;
    try destruct (parseTimeRange (Query r) logStartAt logEndAt) as [tr e0]; simpl;
    destruct (Atoi v) as [i e1]; simpl;
    rewrite !catcher_Add_app, catcher_Resolve_entries; split; reflexivity.
Qed.

(** C10. When a numeric parameter is given several times, the handler that
    results and the error returned are those of the request that gives its
    first value alone: the values after the first are never read.  This
    holds for [execution], [limit] and [n] on the by-task endpoint and for
    [limit] on the by-id, by-test-name and group endpoints, whenever
    [parseTimeRange], which is handed the same query values, does not itself
    tell the two requests apart.  On each of these endpoints the number the
    handler holds is the one [Atoi] reads from the first value, and the
    parameter adds to the error returned the error of [Atoi] on the first
    value and nothing else. *)
Theorem repeated_numeric_parameter_first_wins
    (vars : gmap string string) (vals : Values) (k v : string) (more : list string) :
  k ∈ [execution; limit; "n"] ->
  parseTimeRange (<[k := v :: more]> vals) logStartAt logEndAt
  = parseTimeRange (<[k := [v]]> vals) logStartAt logEndAt ->
  let all := mkRequest vars (<[k := v :: more]> vals) in
  let first := mkRequest vars (<[k := [v]]> vals) in
  (forall h, logGetByTaskIDHandler.Parse h all = logGetByTaskIDHandler.Parse h first)
  /\ (forall h, logGetByIDHandler.Parse h all = logGetByIDHandler.Parse h first)
  /\ (forall h, logGetByTestNameHandler.Parse h all = logGetByTestNameHandler.Parse h first)
  /\ (forall h, logGroupHandler.Parse h all = logGroupHandler.Parse h first)
  /\ (forall h,
        let h' := (logGetByTaskIDHandler.Parse h all).1 in
        (k = execution -> logGetByTaskIDHandler.execution h' = (Atoi v).1)
        /\ (k = limit -> logGetByTaskIDHandler.limit h' = (Atoi v).1)
        /\ (k = "n" -> logGetByTaskIDHandler.n h' = (Atoi v).1))
  /\ (k = limit ->
      (forall h,
         logGetByIDHandler.limit (logGetByIDHandler.Parse h all).1 = (Atoi v).1
         /\ entries (logGetByIDHandler.Parse h all).2
            = (option_list (parseTimeRange (Query all) logStartAt logEndAt).2
               ++ option_list (Atoi v).2)%list)
      /\ (forall h,
            logGetByTestNameHandler.limit (logGetByTestNameHandler.Parse h all).1
            = (Atoi v).1
            /\ entries (logGetByTestNameHandler.Parse h all).2
               = (option_list (parseTimeRange (Query all) logStartAt logEndAt).2
                  ++ option_list (Atoi v).2)%list)
      /\ (forall h,
            logGroupHandler.limit (logGroupHandler.Parse h all).1 = (Atoi v).1
            /\ entries (logGroupHandler.Parse h all).2
               = ((if bool_decide (Values_Get (Query all) logStartAt = "")
                      && bool_decide (Values_Get (Query all) logEndAt = "")
                   then []
                   else option_list
                          (parseTimeRange (Query all) logStartAt logEndAt).2)
                  ++ option_list (Atoi v).2)%list))
  /\ atoiErrors (Query all) k = option_list (Atoi v).2
  /\ (forall h,
        entries (logGetByTaskIDHandler.Parse h all).2
        = (option_list (parseTimeRange (Query all) logStartAt logEndAt).2
           ++ atoiErrors (Query all) execution ++ atoiErrors (Query all) limit
           ++ atoiErrors (Query all) "n")%list).
Proof.
  intros Hk Hptr all first.
  assert (Htags : k <> tags).
  { intros ->. repeat (apply elem_of_cons in Hk as [Hk|Hk]; [discriminate|]).
    apply elem_of_nil in Hk. exact Hk. }
  split; [|split; [|split; [|split; [|split; [|split; [|split]]]]]].
  - intros h. unfold logGetByTaskIDHandler.Parse, all, first; simpl.
    rewrite Hptr, !(Values_Get_insert_first vals k _ v more).
    rewrite !(Values_index_insert_ne _ k tags) by exact Htags.
    first_value k execution; first_value k limit; first_value k "n"; reflexivity.
  - intros h. unfold logGetByIDHandler.Parse, all, first; simpl.
    rewrite Hptr, !(Values_Get_insert_first vals k _ v more).
    first_value k limit; reflexivity.
  - intros h. unfold logGetByTestNameHandler.Parse, all, first; simpl.
    rewrite Hptr, !(Values_Get_insert_first vals k _ v more).
    rewrite !(Values_index_insert_ne _ k tags) by exact Htags.
    first_value k limit; reflexivity.
  - intros h. unfold logGroupHandler.Parse, all, first; simpl.
    rewrite Hptr, !(Values_Get_insert_first vals k _ v more).
    rewrite !(Values_index_insert_ne _ k tags) by exact Htags.
    first_value k limit; reflexivity.
  - intros h h'. unfold h', logGetByTaskIDHandler.Parse, all; simpl.
    destruct (parseTimeRange _ _ _) as [tr e0].
    split; [|split]; intros ->; rewrite ?Values_index_insert_eq;
      rewrite ?Values_index_insert_ne by discriminate;
      repeat match goal with
             | |- context [Atoi ?x] => destruct (Atoi x)
             | |- context [match Values_index ?a ?b with _ => _ end] =>
                 destruct (Values_index a b)
             end; reflexivity.
  - intros Hl.
    assert (E : Values_index (Query all) limit = v :: more)
      by (unfold all; simpl; rewrite <- Hl; apply Values_index_insert_eq).
    split; [|split]; intros h.
    + exact (logGetByID_Parse_limit h all v more E).
    + exact (logGetByTestName_Parse_limit h all v more E).
    + exact (logGroup_Parse_limit h all v more E).
  - unfold atoiErrors, all; simpl. rewrite Values_index_insert_eq. reflexivity.
  - intros h. apply logGetByTaskID_Parse_entries.
Qed.

End Repeated.

(** ** The handlers on these requests *)

Section Scenarios.
#[local] Existing Instance std.externals.

(** The failing input of C1.  The logs of the test are found and the global
    fetch answers not-found: the handler returns the error, not the logs of
    the test. *)
Lemma meta_by_test_name_not_found_witness :
  let sc := scenario.globalFails StatusNotFound in
  let h := scenario.metaByTestName in
  data.metaErr
    (data.answerMeta sc []
       (data.FindLogMetadataByTestName (logMetaGetByTestNameHandler.opts h)))
  = None
  /\ (run sc (logMetaGetByTestNameHandler.Run h)).1
     = gimlet.MakeJSONErrorResponder
         (withMessage (ErrorResponse 404 "no logs")
            "Error getting log metadata by test name 'test1'").
Proof.
  intros sc h. split; [reflexivity|].
  pose proof (meta_by_test_name_global_fetch sc h eq_refl) as (_ & _ & Hnf & _).
  exact (Hnf "no logs" eq_refl).
Defined.

(** The same store with a server error for the global fetch: the handler
    returns the logs of the test as if nothing had failed. *)
Example meta_by_test_name_server_error :
  (run (scenario.globalFails 500)
     (logMetaGetByTestNameHandler.Run scenario.metaByTestName)).1
  = gimlet.NewJSONResponse [scenario.logA].
Proof. reflexivity. Qed.

(** Counterexample to C2 as stated: an entry created at the zero instant.  The
    entry sets the start to the zero instant and the next entry replaces
    it, so the start is not the earliest creation instant, and the other
    order of the same entries gives another start. *)
Lemma inferred_start_after_zero_created :
  let logs := [scenario.logUnset; scenario.logB] in
  let tr := logGroupHandler.inferRange util.zero logs in
  logs <> []
  /\ minCreatedAt logs = 0
  /\ instant (util.StartAt tr) = createdInstant scenario.logB
  /\ instant (util.StartAt tr) <> minCreatedAt logs
  /\ instant (util.StartAt (logGroupHandler.inferRange util.zero (rev logs)))
     <> instant (util.StartAt tr).
Proof. vm_compute. repeat split; discriminate. Qed.

Lemma inferred_range_is_min_max_witness :
  let logs := [scenario.logA; scenario.logB] in
  let tr := logGroupHandler.inferRange util.zero logs in
  util.IsZero util.zero = true
  /\ logs <> []
  /\ Forall (fun l => createdInstant l <> 0) logs
  /\ Exists (fun l => 0 <= completedInstant l) logs
  /\ instant (util.StartAt tr) = minCreatedAt logs
  /\ instant (util.EndAt tr) = maxCompletedAt logs.
Proof.
  intros logs tr.
  assert (H0 : util.IsZero util.zero = true) by reflexivity.
  assert (H1 : logs <> []) by discriminate.
  assert (H2 : Forall (fun l => createdInstant l <> 0) logs)
    by (repeat constructor; vm_compute; discriminate).
  assert (H3 : Exists (fun l => 0 <= completedInstant l) logs)
    by (constructor; vm_compute; discriminate).
  destruct (inferred_range_is_min_max util.zero logs H0 H1 H2 H3) as (Es & Ee & _).
  repeat split; assumption.
Defined.

(** The grouped-log scenario of the specification: entries that span
    00:00 to 01:00 and 00:30 to 02:00 give the range 00:00 to 02:00. *)
Example inferred_range_scenario :
  let tr := logGroupHandler.inferRange util.zero [scenario.logA; scenario.logB] in
  std.formatRFC3339 (util.StartAt tr) = "2021-01-01T00:00:00Z"
  /\ std.formatRFC3339 (util.EndAt tr) = "2021-01-01T02:00:00Z".
Proof. vm_compute. split; reflexivity. Qed.

(** Counterexample to C4 as stated, on the by-task endpoint.  A request with [limit=5]
    and [n=3] parses without error, and the options of the one call it
    makes have the count limit and the tail count both active. *)
Lemma limit_and_tail_both_active :
  let parsed := logGetByTaskIDHandler.Parse logGetByTaskIDHandler.Factory
                  scenario.limitAndTail in
  parsed.2 = None
  /\ map (fun c => (data.Limit (callOpts c), data.Tail (callOpts c),
                    activeModes (callOpts c)))
       (run scenario.store (logGetByTaskIDHandler.Run parsed.1)).2
     = [(5, 3, 2%nat)]
  /\ ~ Forall (fun c => (activeModes (callOpts c) <= 1)%nat)
         (run scenario.store (logGetByTaskIDHandler.Run parsed.1)).2.
Proof.
  vm_compute. split; [reflexivity|]. split; [reflexivity|].
  intros Hall. inversion Hall as [|? ? Hle _]; subst. lia.
Qed.

(** Counterexample to C5 as stated, for the two bounds of the time range.  Both bounds
    of the request are malformed, and the error returned has one entry. *)
Lemma two_bad_bounds_one_entry :
  let vals := Query scenario.badBounds in
  malformedBound vals logStartAt = true
  /\ malformedBound vals logEndAt = true
  /\ malformedFields vals = 2%nat
  /\ length (entries (logGetByTaskIDHandler.Parse logGetByTaskIDHandler.Factory
                        scenario.badBounds).2)
     = 1%nat.
Proof. vm_compute. repeat split; reflexivity. Qed.

(** The by-task scenario of the specification: [paginate=true] without
    [limit] and [n] selects the soft size limit of 10 MiB, and the truncated
    answer gives a [next] page keyed by the continuation instant. *)
Example paginated_by_task_scenario :
  let h := (logGetByTaskIDHandler.Parse logGetByTaskIDHandler.Factory
              scenario.paginatedByTask).1 in
  let result := run scenario.store (logGetByTaskIDHandler.Run h) in
  map (fun c => (data.Tags (callOpts c), data.SoftSizeLimit (callOpts c))) result.2
  = [(["a"; "b"], 10485760)]
  /\ (gimlet.Pages result.1 ≫= gimlet.Next)
     = Some (navPage "next" "2021-01-02T00:00:00Z").
Proof. vm_compute. split; reflexivity. Qed.

Lemma group_prev_key_is_zero_instant_witness :
  let r := scenario.groupNoBounds in
  let h := (logGroupHandler.Parse logGroupHandler.Factory r).1 in
  let result := run scenario.store (logGroupHandler.Run h) in
  Values_Get (Query r) logStartAt = ""
  /\ Values_Get (Query r) logEndAt = ""
  /\ (gimlet.Pages result.1 ≫= gimlet.Prev)
     = Some (navPage "prev" "0001-01-01T00:00:00Z")
  /\ map (fun c => std.formatRFC3339 (util.StartAt (data.TimeRange (callOpts c))))
       result.2
     = ["0001-01-01T00:00:00Z"; "2021-01-01T00:00:00Z"].
Proof.
  intros r h result.
  assert (Hs : Values_Get (Query r) logStartAt = "") by reflexivity.
  assert (He : Values_Get (Query r) logEndAt = "") by reflexivity.
  destruct (group_prev_key_is_zero_instant scenario.store r Hs He
              eq_refl eq_refl eq_refl) as (_ & Hcalls & _ & _ & _ & Hpages).
  split; [exact Hs|]. split; [exact He|]. split.
  - unfold result, h. rewrite (Hpages eq_refl). reflexivity.
  - unfold result, h. rewrite Hcalls. vm_compute. reflexivity.
Defined.

Lemma repeated_numeric_parameter_witness :
  let all := mkRequest ∅ (<[limit := ["10"; "oops"]]> ∅) in
  let first := mkRequest ∅ (<[limit := ["10"]]> ∅) in
  limit ∈ [execution; limit; "n"]
  /\ parseTimeRange (Query all) logStartAt logEndAt
     = parseTimeRange (Query first) logStartAt logEndAt
  /\ logGetByTaskIDHandler.Parse logGetByTaskIDHandler.Factory all
     = logGetByTaskIDHandler.Parse logGetByTaskIDHandler.Factory first
  /\ logGetByTaskIDHandler.limit
       (logGetByTaskIDHandler.Parse logGetByTaskIDHandler.Factory all).1 = 10
  /\ (logGetByTaskIDHandler.Parse logGetByTaskIDHandler.Factory all).2 = None
  /\ logGetByIDHandler.limit
       (logGetByIDHandler.Parse logGetByIDHandler.Factory all).1 = 10
  /\ entries (logGetByIDHandler.Parse logGetByIDHandler.Factory all).2 = [].
Proof.
  intros all first.
  assert (Hk : limit ∈ [execution; limit; "n"]) by (right; left).
  assert (Hp : parseTimeRange (Query all) logStartAt logEndAt
               = parseTimeRange (Query first) logStartAt logEndAt)
    by (vm_compute; reflexivity).
  destruct (repeated_numeric_parameter_first_wins ∅ ∅ limit "10" ["oops"] Hk Hp)
    as (Htask & _ & _ & _ & Hval & Hid & _).
  split; [exact Hk|]. split; [exact Hp|]. split; [apply Htask|].
  split; [|split; [reflexivity|]].
  - destruct (Hval logGetByTaskIDHandler.Factory) as (_ & Hl & _).
    exact (Hl eq_refl).
  - destruct (Hid eq_refl) as (Hbyid & _).
    destruct (Hbyid logGetByIDHandler.Factory) as [Hv He].
    split; [exact Hv|]. etransitivity; [exact He|]. vm_compute. reflexivity.
Defined.

End Scenarios.

(** * Further properties of the handlers *)

(** ** Errors of the store *)

Section StoreErrors.
Context `{Externals}.
Variable sc : data.Connector.

(** X1. When the call for the payload returns an error, every payload
    handler responds with the JSON error responder of that error, wrapped
    with the message that names what was asked for; whatever data,
    continuation instant and truncation flag came with the error are
    dropped, and the response has no pages. *)
Theorem payload_store_error_is_wrapped :
  (forall (h : logGetByIDHandler.t) err,
     data.logsErr (data.answerLogs sc []
                     (data.FindLogByID (logGetByIDHandler.opts h))) = Some err ->
     (run sc (logGetByIDHandler.Run h)).1
     = gimlet.mkResponder
         (gimlet.errorBody
            (withMessage err
               ("Error getting log by id '" ++ logGetByIDHandler.id h ++ "'")))
         None)
  /\ (forall (h : logGetByTaskIDHandler.t) err,
        data.logsErr (data.answerLogs sc []
                        (data.FindLogsByTaskID (logGetByTaskIDHandler.opts h)))
        = Some err ->
        (run sc (logGetByTaskIDHandler.Run h)).1
        = gimlet.mkResponder
            (gimlet.errorBody
               (withMessage err
                  ("Error getting logs by task id '"
                   ++ logGetByTaskIDHandler.id h ++ "'")))
            None)
  /\ (forall (h : logGetByTestNameHandler.t) err,
        data.logsErr (data.answerLogs sc []
                        (data.FindLogsByTestName (logGetByTestNameHandler.opts h)))
        = Some err ->
        (run sc (logGetByTestNameHandler.Run h)).1
        = gimlet.mkResponder
            (gimlet.errorBody
               (withMessage err
                  ("Error getting logs by test name '"
                   ++ logGetByTestNameHandler.name h ++ "'")))
            None)
  /\ (forall (h : logGroupHandler.t) err,
        let o := logGroupHandler.opts h in
        let m := data.FindLogMetadataByTestName o in
        let meta := data.answerMeta sc [] m in
        let o' := data.set_TimeRange o
                    (logGroupHandler.inferRange (logGroupHandler.tr h)
                       (data.logs meta)) in
        let ans :=
          if util.IsZero (logGroupHandler.tr h)
          then data.answerLogs sc [data.MetaCall m] (data.FindGroupedLogs o')
          else data.answerLogs sc [] (data.FindGroupedLogs o) in
        (util.IsZero (logGroupHandler.tr h) = true -> data.metaErr meta = None) ->
        data.logsErr ans = Some err ->
        (run sc (logGroupHandler.Run h)).1
        = gimlet.mkResponder
            (gimlet.errorBody
               (withMessage err
                  ("Error getting grouped logs with task_id/test_name/group_id '"
                   ++ logGroupHandler.id h ++ "/" ++ logGroupHandler.name h
                   ++ "/" ++ logGroupHandler.groupID h ++ "'")))
            None).
Proof.
  split; [|split; [|split]].
  - intros h err E. unfold run, logGetByIDHandler.Run; simpl.
    rewrite E. reflexivity.
  - intros h err E. unfold run, logGetByTaskIDHandler.Run; simpl.
    rewrite E. reflexivity.
  - intros h err E. unfold run, logGetByTestNameHandler.Run; simpl.
    rewrite E. reflexivity.
  - intros h err o m meta o' ans Hm E.
    pose proof (logGroup_run sc h) as R; cbv zeta in R. fold o m meta o' in R.
    rewrite R; clear R. unfold ans in *; clear ans.
    destruct (util.IsZero (logGroupHandler.tr h)).
    + rewrite (Hm eq_refl). cbn [fst].
      pose proof (logGroup_findGroupedLogs sc [data.MetaCall m] h o') as F.
      cbv zeta in F. rewrite F, E. reflexivity.
    + cbn [fst]. pose proof (logGroup_findGroupedLogs sc [] h o) as F.
      cbv zeta in F. rewrite F, E. reflexivity.
Qed.

End StoreErrors.

(** ** The metadata handlers *)

Section MetaByTestName.
Variable sc : data.Connector.

(** X2. When the fetch for the test itself fails, the by-test-name metadata
    handler responds with that error, wrapped, and asks the store nothing
    more: the fetch without a test name is not made. *)
Theorem meta_by_test_name_scoped_failure
    (h : logMetaGetByTestNameHandler.t) (err : error) :
  let m1 := data.FindLogMetadataByTestName (logMetaGetByTestNameHandler.opts h) in
  data.metaErr (data.answerMeta sc [] m1) = Some err ->
  run sc (logMetaGetByTestNameHandler.Run h)
  = (gimlet.MakeJSONErrorResponder
       (withMessage err
          ("Error getting log metadata by test name '"
           ++ logMetaGetByTestNameHandler.name h ++ "'")),
     [data.MetaCall m1]).
Proof.
  intros m1 E. unfold run, logMetaGetByTestNameHandler.Run; simpl.
  fold m1. rewrite E. reflexivity.
Qed.

Lemma logMetaGetByTestName_calls (h : logMetaGetByTestNameHandler.t) :
  let o := logMetaGetByTestNameHandler.opts h in
  let m1 := data.FindLogMetadataByTestName o in
  let m2 := data.FindLogMetadataByTestName (data.set_TestName o "") in
  (run sc (logMetaGetByTestNameHandler.Run h)).2
  = data.MetaCall m1
    :: match data.metaErr (data.answerMeta sc [] m1) with
       | Some _ => []
       | None => [data.MetaCall m2]
       end.
Proof.
  intros o m1 m2. unfold run, logMetaGetByTestNameHandler.Run; simpl.
  fold o m1. destruct (data.metaErr (data.answerMeta sc [] m1)); [reflexivity|].
  simpl. fold m2.
  destruct (data.metaErr (data.answerMeta sc [data.MetaCall m1] m2)) as [e|];
    [destruct e|]; simpl; try reflexivity.
  destruct (_ =? StatusNotFound); reflexivity.
Qed.

(** X3. Whatever the query string holds, parsing a by-test-name metadata
    request does not fail, and the handler asks the store for the task and
    test of the path and the tags of the query, with no time range, limit,
    tail or soft size limit; unless that fails it asks once more, for the
    same task and tags without a test name. *)
Theorem meta_by_test_name_calls
    (h0 : logMetaGetByTestNameHandler.t) (r : Request) :
  let parsed := logMetaGetByTestNameHandler.Parse h0 r in
  let scoped (name : string) :=
    data.FindLogMetadataByTestName
      {| data.ID := ""; data.TaskID := GetVar r "task_id";
         data.TestName := name;
         data.Execution := 0; data.ProcessName := "";
         data.Tags := Values_index (Query r) tags;
         data.TimeRange := util.zero;
         data.PrintTime := false; data.PrintPriority := false;
         data.Limit := 0; data.Tail := 0; data.SoftSizeLimit := 0 |} in
  let m1 := scoped (GetVar r "test_name") in
  parsed.2 = None
  /\ (run sc (logMetaGetByTestNameHandler.Run parsed.1)).2
     = data.MetaCall m1
       :: match data.metaErr (data.answerMeta sc [] m1) with
          | Some _ => []
          | None => [data.MetaCall (scoped "")]
          end.
Proof.
  intros parsed scoped m1. split; [reflexivity|].
  exact (logMetaGetByTestName_calls parsed.1).
Qed.

End MetaByTestName.

Section MetaByIDAndTask.
Variable sc : metadata.Connector.

(** X4. The by-id metadata handler reads the id of the path and nothing
    else: two requests with the same id parse to the same handler, without
    error, whatever their query strings, and the response is the log the
    store has for that id, or the store's error wrapped with a message that
    names the id. *)
Theorem meta_by_id_reads_the_id_only
    (h0 h0' : logMetaGetByIDHandler.t) (r r' : Request) :
  GetVar r "id" = GetVar r' "id" ->
  let parsed := logMetaGetByIDHandler.Parse h0 r in
  let ans := metadata.FindLogMetadataByID sc (GetVar r "id") in
  parsed = logMetaGetByIDHandler.Parse h0' r'
  /\ parsed.2 = None
  /\ logMetaGetByIDHandler.Run sc parsed.1
     = match ans.2 with
       | Some err =>
           logMetaGetByIDHandler.failed
             (gimlet.MakeJSONErrorResponder
                (withMessage err
                   ("Error getting log metadata by id '" ++ GetVar r "id" ++ "'")))
       | None => logMetaGetByIDHandler.jsonLog ans.1
       end.
Proof.
  intros E parsed ans. unfold parsed, logMetaGetByIDHandler.Parse.
  rewrite <- E. split; [reflexivity|]. split; [reflexivity|].
  unfold logMetaGetByIDHandler.Run; simpl. fold ans.
  destruct ans as [apiLog [err|]]; reflexivity.
Qed.

(** X5. The by-task metadata handler reads the task of the path and the tags
    of the query and nothing else: two requests that agree on them parse to
    the same handler, without error, and the store is asked for that task
    and those tags alone, with no test name, time range or limit; the
    response is the list the store returns, or its error wrapped with a
    message that names the task. *)
Theorem meta_by_task_reads_task_and_tags_only
    (h0 h0' : logMetaGetByTaskIDHandler.t) (r r' : Request) :
  GetVar r "task_id" = GetVar r' "task_id" ->
  Values_index (Query r) tags = Values_index (Query r') tags ->
  let parsed := logMetaGetByTaskIDHandler.Parse h0 r in
  let ans :=
    metadata.FindLogMetadataByTaskID sc
      {| data.ID := ""; data.TaskID := GetVar r "task_id"; data.TestName := "";
         data.Execution := 0; data.ProcessName := "";
         data.Tags := Values_index (Query r) tags;
         data.TimeRange := util.zero;
         data.PrintTime := false; data.PrintPriority := false;
         data.Limit := 0; data.Tail := 0; data.SoftSizeLimit := 0 |} in
  parsed = logMetaGetByTaskIDHandler.Parse h0' r'
  /\ parsed.2 = None
  /\ logMetaGetByTaskIDHandler.Run sc parsed.1
     = match data.metaErr ans with
       | Some err =>
           gimlet.MakeJSONErrorResponder
             (withMessage err
                ("Error getting log metadata by task id '"
                 ++ GetVar r "task_id" ++ "'"))
       | None => gimlet.NewJSONResponse (data.logs ans)
       end.
Proof.
  intros E Et parsed ans. unfold parsed, logMetaGetByTaskIDHandler.Parse.
  rewrite <- E, <- Et. split; [reflexivity|]. split; [reflexivity|].
  reflexivity.
Qed.

End MetaByIDAndTask.

(** ** Parsing, on the other payload endpoints *)

(** X6. A grouped-log request that gives neither bound is parsed without
    [parseTimeRange]: the handler and the error are the same whatever that
    function would return, the range of the handler is left as it was, and
    the only error there can be is that of [limit]. *)
Theorem group_parse_without_bounds
    (E1 E2 : Externals) (h : logGroupHandler.t) (r : Request) :
  Values_Get (Query r) logStartAt = "" ->
  Values_Get (Query r) logEndAt = "" ->
  @logGroupHandler.Parse E1 h r = @logGroupHandler.Parse E2 h r
  /\ logGroupHandler.tr (@logGroupHandler.Parse E1 h r).1 = logGroupHandler.tr h
  /\ entries (@logGroupHandler.Parse E1 h r).2 = atoiErrors (Query r) limit.
Proof.
  intros Hs He. unfold logGroupHandler.Parse, atoiErrors. rewrite Hs, He. simpl.
  destruct (Values_index (Query r) limit) as [|v ?]; [repeat split|].
  destruct (Atoi v) as [i [e|]]; repeat split.
Qed.

Section ParseErrors.
Context `{Externals}.

(** X7. On the by-id and by-test-name endpoints the error of [Parse] is made
    of the error of the time range, when [parseTimeRange] returns one,
    followed by the error of [limit], when its first value is no integer;
    on the group endpoint the time range is read, and can add its error,
    only when a bound is given.  Neither error keeps the other from being
    reported. *)
Theorem payload_parse_collects_errors (r : Request) :
  let vals := Query r in
  let rangeErr := option_list (parseTimeRange vals logStartAt logEndAt).2 in
  (forall h, entries (logGetByIDHandler.Parse h r).2
             = (rangeErr ++ atoiErrors vals limit)%list)
  /\ (forall h, entries (logGetByTestNameHandler.Parse h r).2
                = (rangeErr ++ atoiErrors vals limit)%list)
  /\ (forall h, entries (logGroupHandler.Parse h r).2
                = ((if bool_decide (Values_Get vals logStartAt = "")
                       && bool_decide (Values_Get vals logEndAt = "")
                    then [] else rangeErr)
                   ++ atoiErrors vals limit)%list).
Proof.
  intros vals rangeErr. unfold rangeErr, atoiErrors.
  split; [|split]; intros h.
  - unfold logGetByIDHandler.Parse. fold vals.
    destruct (parseTimeRange vals logStartAt logEndAt) as [tr e0]; simpl.
    destruct (Values_index vals limit) as [|v ?]; [|destruct (Atoi v) as [? e1]];
      simpl; rewrite ?catcher_Add_app, ?app_nil_r, ?catcher_Resolve_entries;
      reflexivity.
  - unfold logGetByTestNameHandler.Parse. fold vals.
    destruct (parseTimeRange vals logStartAt logEndAt) as [tr e0]; simpl.
    destruct (Values_index vals limit) as [|v ?]; [|destruct (Atoi v) as [? e1]];
      simpl; rewrite ?catcher_Add_app, ?app_nil_r, ?catcher_Resolve_entries;
      reflexivity.
  - unfold logGroupHandler.Parse. fold vals.
    destruct (bool_decide (Values_Get vals logStartAt = ""));
      destruct (bool_decide (Values_Get vals logEndAt = "")); simpl;
      try destruct (parseTimeRange vals logStartAt logEndAt) as [tr e0]; simpl;
      (destruct (Values_index vals limit) as [|v ?]; [|destruct (Atoi v) as [? e1]]);
      simpl; rewrite ?catcher_Add_app, ?app_nil_r, ?catcher_Resolve_entries;
      reflexivity.
Qed.

End ParseErrors.

(** ** From the query string to the store *)

Section ByTask.
Context `{Externals}.
Variable sc : data.Connector.

(** X8. A by-task request on a fresh handler makes one call,
    [FindLogsByTaskID], with the task of the path, the process name and the
    tags of the query as given, the time range [parseTimeRange] returns, a
    flag set exactly when the first value of its parameter is the string
    [true], the integers read from the first values of [execution], [limit]
    and [n] (zero without one), and the soft size limit set exactly when
    [paginate] is [true] and neither integer of [limit] and [n] is
    positive. *)
Theorem by_task_call_from_request (r : Request) :
  let vals := Query r in
  let h := (logGetByTaskIDHandler.Parse logGetByTaskIDHandler.Factory r).1 in
  (run sc (logGetByTaskIDHandler.Run h)).2
  = [data.LogsCall
       (data.FindLogsByTaskID
          {| data.ID := "";
             data.TaskID := GetVar r "task_id";
             data.TestName := "";
             data.Execution := firstInt vals execution;
             data.ProcessName := Values_Get vals procName;
             data.Tags := Values_index vals tags;
             data.TimeRange := (parseTimeRange vals logStartAt logEndAt).1;
             data.PrintTime := bool_decide (Values_Get vals printTime = "true");
             data.PrintPriority :=
               bool_decide (Values_Get vals printPriority = "true");
             data.Limit := firstInt vals limit;
             data.Tail := firstInt vals "n";
             data.SoftSizeLimit :=
               if bool_decide (Values_Get vals paginate = "true")
                  && (firstInt vals limit <=? 0) && (firstInt vals "n" <=? 0)
               then 10 * 1024 * 1024 else 0 |})].
Proof.
  intros vals h. rewrite logGetByTaskID_calls. do 3 f_equal.
  unfold h, logGetByTaskIDHandler.opts, logGetByTaskIDHandler.Parse, firstInt.
  fold vals.
  destruct (parseTimeRange vals logStartAt logEndAt) as [tr e0]; simpl.
  destruct (Values_index vals execution) as [|v1 ?]; [|destruct (Atoi v1) as [i1 ?]];
    (destruct (Values_index vals limit) as [|v2 ?]; [|destruct (Atoi v2) as [i2 ?]]);
    (destruct (Values_index vals "n") as [|v3 ?]; [|destruct (Atoi v3) as [i3 ?]]);
    simpl; destruct (_ && _); reflexivity.
Qed.

End ByTask.

(** ** The inferred range, for any entries *)

Section RangeBounds.

Lemma inferStep_StartAt (tr : util.TimeRange) (l : model.APILog) :
  util.StartAt (logGroupHandler.inferStep tr l)
  = if Time_After (util.StartAt tr) (model.CreatedAt l)
       || Time_IsZero (util.StartAt tr)
    then model.CreatedAt l else util.StartAt tr.
Proof.
  unfold logGroupHandler.inferStep.
  destruct (_ || _); destruct (Time_Before _ _); reflexivity.
Qed.

Lemma inferStep_EndAt (tr : util.TimeRange) (l : model.APILog) :
  util.EndAt (logGroupHandler.inferStep tr l)
  = if Time_Before (util.EndAt tr) (model.CompletedAt l)
    then model.CompletedAt l else util.EndAt tr.
Proof.
  unfold logGroupHandler.inferStep.
  destruct (_ || _); simpl; destruct (Time_Before _ _); reflexivity.
Qed.

Lemma inferRange_app (tr : util.TimeRange) (a b : list model.APILog) :
  logGroupHandler.inferRange tr (a ++ b)
  = logGroupHandler.inferRange (logGroupHandler.inferRange tr a) b.
Proof. apply fold_left_app. Qed.

Lemma inferRange_EndAt_In (logs : list model.APILog) (tr : util.TimeRange) :
  In (util.EndAt (logGroupHandler.inferRange tr logs))
     (util.EndAt tr :: map model.CompletedAt logs).
Proof.
  revert tr. induction logs as [|l ls IH]; intros tr; [left; reflexivity|].
  change (logGroupHandler.inferRange tr (l :: ls))
    with (logGroupHandler.inferRange (logGroupHandler.inferStep tr l) ls).
  destruct (IH (logGroupHandler.inferStep tr l)) as [E|Hin].
  - rewrite <- E, inferStep_EndAt.
    destruct (Time_Before _ _); [right; left|left]; reflexivity.
  - right; right. exact Hin.
Qed.

Lemma inferRange_StartAt_In (logs : list model.APILog) (tr : util.TimeRange) :
  In (util.StartAt (logGroupHandler.inferRange tr logs))
     (util.StartAt tr :: map model.CreatedAt logs).
Proof.
  revert tr. induction logs as [|l ls IH]; intros tr; [left; reflexivity|].
  change (logGroupHandler.inferRange tr (l :: ls))
    with (logGroupHandler.inferRange (logGroupHandler.inferStep tr l) ls).
  destruct (IH (logGroupHandler.inferStep tr l)) as [E|Hin].
  - rewrite <- E, inferStep_StartAt.
    destruct (_ || _); [right; left|left]; reflexivity.
  - right; right. exact Hin.
Qed.

(** X9. Whatever the entries and the range the loop starts from, the end
    of the inferred range is not before the end it started from nor before
    the completion of any entry, and it is the end it started from or the
    completion instant of one of the entries. *)
Theorem inferred_end_covers_completions
    (tr0 : util.TimeRange) (logs : list model.APILog) :
  let tr := logGroupHandler.inferRange tr0 logs in
  instant (util.EndAt tr0) <= instant (util.EndAt tr)
  /\ Forall (fun l => completedInstant l <= instant (util.EndAt tr)) logs
  /\ In (util.EndAt tr) (util.EndAt tr0 :: map model.CompletedAt logs).
Proof.
  intros tr. unfold tr. rewrite inferRange_EndAt.
  destruct (fold_max_spec (map completedInstant logs) (instant (util.EndAt tr0)))
    as [_ Hub].
  split; [apply Hub; left; reflexivity|]. split.
  - apply List.Forall_forall. intros l Hin. apply Hub. right.
    apply in_map. exact Hin.
  - apply inferRange_EndAt_In.
Qed.

(** X10. From a range whose start is the zero instant and for entries of
    which there is at least one, the start of the inferred range is the
    creation instant of one of the entries, and it is never after the
    creation of the last entry. *)
Theorem inferred_start_is_a_creation
    (tr0 : util.TimeRange) (logs : list model.APILog) :
  Time_IsZero (util.StartAt tr0) = true ->
  logs <> [] ->
  let tr := logGroupHandler.inferRange tr0 logs in
  In (util.StartAt tr) (map model.CreatedAt logs)
  /\ (forall l, last logs = Some l -> instant (util.StartAt tr) <= createdInstant l).
Proof.
  intros Hz Hne tr. split.
  - destruct logs as [|l ls]; [congruence|].
    assert (E : util.StartAt (logGroupHandler.inferStep tr0 l) = model.CreatedAt l).
    { rewrite inferStep_StartAt, Hz, orb_true_r. reflexivity. }
    pose proof (inferRange_StartAt_In ls (logGroupHandler.inferStep tr0 l)) as Hin.
    rewrite E in Hin. exact Hin.
  - intros l Hl. apply last_Some in Hl as [pre ->].
    unfold tr. rewrite inferRange_app.
    change (logGroupHandler.inferRange ?t [l]) with (logGroupHandler.inferStep t l).
    rewrite inferStep_StartAt.
    unfold Time_After, Time_IsZero, createdInstant.
    destruct (Z.ltb_spec (instant (model.CreatedAt l))
                (instant (util.StartAt (logGroupHandler.inferRange tr0 pre))));
      simpl; [lia|].
    destruct (_ =? 0); simpl; lia.
Qed.

Lemma inferRange_StartAt_congr (logs : list model.APILog) (tr tr' : util.TimeRange) :
  instant (util.StartAt tr) = instant (util.StartAt tr') ->
  instant (util.StartAt (logGroupHandler.inferRange tr logs))
  = instant (util.StartAt (logGroupHandler.inferRange tr' logs)).
Proof.
  revert tr tr'. induction logs as [|l ls IH]; intros tr tr' E; [exact E|].
  change (logGroupHandler.inferRange ?t (l :: ls))
    with (logGroupHandler.inferRange (logGroupHandler.inferStep t l) ls).
  apply IH. rewrite !inferStep_StartAt. unfold Time_After, Time_IsZero.
  rewrite E. destruct (_ || _); [reflexivity|exact E].
Qed.

Lemma inferRange_StartAt_nonneg (logs : list model.APILog) (tr : util.TimeRange) :
  0 <= instant (util.StartAt tr) ->
  Forall (fun l => 0 <= createdInstant l) logs ->
  0 <= instant (util.StartAt (logGroupHandler.inferRange tr logs)).
Proof.
  intros Hs Hall.
  destruct (inferRange_StartAt_In logs tr) as [<-|Hin]; [exact Hs|].
  apply in_map_iff in Hin as (l & <- & Hin).
  rewrite List.Forall_forall in Hall. exact (Hall l Hin).
Qed.

(** X11. An entry created at the zero instant makes the loop forget what
    came before it: when no instant so far is before the zero instant, the
    start inferred from the whole list is the start inferred from the
    entries after that entry alone. *)
Theorem zero_created_entry_forgets_earlier
    (tr0 : util.TimeRange) (pre post : list model.APILog) (l0 : model.APILog) :
  0 <= instant (util.StartAt tr0) ->
  Forall (fun l => 0 <= createdInstant l) pre ->
  createdInstant l0 = 0 ->
  instant (util.StartAt (logGroupHandler.inferRange tr0 (pre ++ l0 :: post)))
  = instant (util.StartAt (logGroupHandler.inferRange util.zero post)).
Proof.
  intros Hs Hpre H0. rewrite inferRange_app.
  change (logGroupHandler.inferRange ?t (l0 :: post))
    with (logGroupHandler.inferRange (logGroupHandler.inferStep t l0) post).
  apply inferRange_StartAt_congr. rewrite inferStep_StartAt.
  pose proof (inferRange_StartAt_nonneg pre tr0 Hs Hpre) as Hn.
  unfold Time_After, Time_IsZero. unfold createdInstant in H0. rewrite H0.
  destruct (Z.ltb_spec 0 (instant (util.StartAt (logGroupHandler.inferRange tr0 pre))));
    simpl; [exact H0|].
  destruct (Z.eqb_spec (instant (util.StartAt (logGroupHandler.inferRange tr0 pre))) 0);
    simpl; [exact H0|lia].
Qed.

End RangeBounds.

(** ** When the range is inferred *)

Section GroupInference.
Context `{Externals}.
Variable sc : data.Connector.




End GroupInference.

(** ** The pages of a response *)

Section PagePairs.
Context `{Externals}.

(** X12. A response of [newBuildloggerResponder] that carries pages was built
    for a truncated result, carries the payload as its body and carries both
    [prev] and [next]: a response never has one of the two alone, and the
    error response has none. *)
Theorem pages_come_in_pairs
    (data : list Byte.byte) (last next : Time) (paginated : bool)
    (p : gimlet.ResponsePages) :
  gimlet.Pages (newBuildloggerResponder data last next paginated) = Some p ->
  paginated = true
  /\ gimlet.Body (newBuildloggerResponder data last next paginated)
     = gimlet.textBody data
  /\ gimlet.Prev p = Some (navPage "prev" (Time_Format last RFC3339))
  /\ gimlet.Next p = Some (navPage "next" (Time_Format next RFC3339)).
Proof.
  destruct paginated; [|discriminate].
  rewrite newBuildloggerResponder_paginated.
  destruct (ResponsePages_Validate _); simpl; [discriminate|].
  intros [= <-]. repeat split.
Qed.

End PagePairs.

(** ** The further properties on requests *)

Section MoreScenarios.
#[local] Existing Instance std.externals.

Lemma meta_by_test_name_scoped_failure_witness :
  let h := scenario.metaByTestName in
  let m1 := data.FindLogMetadataByTestName (logMetaGetByTestNameHandler.opts h) in
  data.metaErr (data.answerMeta more.metaFails [] m1)
  = Some (errorString "store is down")
  /\ (run more.metaFails (logMetaGetByTestNameHandler.Run h)).2 = [data.MetaCall m1].
Proof.
  intros h m1.
  assert (E : data.metaErr (data.answerMeta more.metaFails [] m1)
              = Some (errorString "store is down")) by reflexivity.
  split; [exact E|].
  rewrite (meta_by_test_name_scoped_failure more.metaFails h _ E). reflexivity.
Defined.

Lemma meta_by_id_reads_the_id_only_witness :
  GetVar more.metaByID "id" = GetVar more.metaByIDNoise "id"
  /\ logMetaGetByIDHandler.Parse logMetaGetByIDHandler.Factory more.metaByID
     = logMetaGetByIDHandler.Parse logMetaGetByIDHandler.Factory more.metaByIDNoise
  /\ logMetaGetByIDHandler.Run more.oneLog
       (logMetaGetByIDHandler.Parse logMetaGetByIDHandler.Factory
          more.metaByIDNoise).1
     = logMetaGetByIDHandler.jsonLog (Some scenario.logA).
Proof.
  assert (E : GetVar more.metaByID "id" = GetVar more.metaByIDNoise "id")
    by reflexivity.
  destruct (meta_by_id_reads_the_id_only more.oneLog
              logMetaGetByIDHandler.Factory logMetaGetByIDHandler.Factory
              more.metaByID more.metaByIDNoise E) as (Hp & _ & Hr).
  split; [exact E|]. split; [exact Hp|].
  rewrite <- Hp, Hr. reflexivity.
Defined.

Lemma meta_by_task_reads_task_and_tags_only_witness :
  GetVar more.metaByTask "task_id" = GetVar more.metaByTaskNoise "task_id"
  /\ Values_index (Query more.metaByTask) tags
     = Values_index (Query more.metaByTaskNoise) tags
  /\ logMetaGetByTaskIDHandler.Parse logMetaGetByTaskIDHandler.Factory
       more.metaByTask
     = logMetaGetByTaskIDHandler.Parse logMetaGetByTaskIDHandler.Factory
         more.metaByTaskNoise
  /\ logMetaGetByTaskIDHandler.Run more.oneLog
       (logMetaGetByTaskIDHandler.Parse logMetaGetByTaskIDHandler.Factory
          more.metaByTaskNoise).1
     = gimlet.NewJSONResponse [scenario.logA].
Proof.
  assert (E : GetVar more.metaByTask "task_id" = GetVar more.metaByTaskNoise "task_id")
    by reflexivity.
  assert (Et : Values_index (Query more.metaByTask) tags
               = Values_index (Query more.metaByTaskNoise) tags)
    by (vm_compute; reflexivity).
  destruct (meta_by_task_reads_task_and_tags_only more.oneLog
              logMetaGetByTaskIDHandler.Factory logMetaGetByTaskIDHandler.Factory
              more.metaByTask more.metaByTaskNoise E Et) as (Hp & _ & Hr).
  split; [exact E|]. split; [exact Et|]. split; [exact Hp|].
  rewrite <- Hp, Hr. reflexivity.
Defined.

Lemma group_parse_without_bounds_witness :
  let r := more.groupBadLimit in
  Values_Get (Query r) logStartAt = ""
  /\ Values_Get (Query r) logEndAt = ""
  /\ @logGroupHandler.Parse std.externals logGroupHandler.Factory r
     = @logGroupHandler.Parse more.noRange logGroupHandler.Factory r
  /\ entries (@logGroupHandler.Parse more.noRange logGroupHandler.Factory r).2
     = [NumError "Atoi" "ten" ErrSyntax].
Proof.
  intros r.
  assert (Hs : Values_Get (Query r) logStartAt = "") by reflexivity.
  assert (He : Values_Get (Query r) logEndAt = "") by reflexivity.
  destruct (group_parse_without_bounds std.externals more.noRange
              logGroupHandler.Factory r Hs He) as (Hp & _ & Hent).
  split; [exact Hs|]. split; [exact He|]. split; [exact Hp|].
  rewrite <- Hp, Hent. vm_compute. reflexivity.
Defined.

Lemma inferred_start_is_a_creation_witness :
  let logs := [scenario.logUnset; scenario.logB] in
  let tr := logGroupHandler.inferRange util.zero logs in
  Time_IsZero (util.StartAt util.zero) = true
  /\ logs <> []
  /\ In (util.StartAt tr) (map model.CreatedAt logs)
  /\ instant (util.StartAt tr) <= createdInstant scenario.logB.
Proof.
  intros logs tr.
  assert (Hz : Time_IsZero (util.StartAt util.zero) = true) by reflexivity.
  assert (Hne : logs <> []) by discriminate.
  destruct (inferred_start_is_a_creation util.zero logs Hz Hne) as [Hin Hlast].
  split; [exact Hz|]. split; [exact Hne|]. split; [exact Hin|].
  apply Hlast. reflexivity.
Defined.

Lemma zero_created_entry_forgets_earlier_witness :
  0 <= instant (util.StartAt util.zero)
  /\ Forall (fun l => 0 <= createdInstant l) [scenario.logA]
  /\ createdInstant scenario.logUnset = 0
  /\ std.formatRFC3339
       (util.StartAt
          (logGroupHandler.inferRange util.zero [scenario.logA; scenario.logB]))
     = "2021-01-01T00:00:00Z"
  /\ instant
       (util.StartAt
          (logGroupHandler.inferRange util.zero
             ([scenario.logA] ++ scenario.logUnset :: [scenario.logB])))
     = createdInstant scenario.logB.
Proof.
  assert (Hs : 0 <= instant (util.StartAt util.zero)) by (vm_compute; discriminate).
  assert (Hpre : Forall (fun l => 0 <= createdInstant l) [scenario.logA])
    by (repeat constructor; vm_compute; discriminate).
  assert (H0 : createdInstant scenario.logUnset = 0) by reflexivity.
  split; [exact Hs|]. split; [exact Hpre|]. split; [exact H0|].
  split; [vm_compute; reflexivity|].
  rewrite (zero_created_entry_forgets_earlier util.zero [scenario.logA]
             [scenario.logB] scenario.logUnset Hs Hpre H0).
  reflexivity.
Defined.

Lemma pages_come_in_pairs_witness :
  let resp := newBuildloggerResponder [Byte.x6c] zeroTime
                (scenario.at_ "2021-01-02T00:00:00Z") true in
  exists p,
    gimlet.Pages resp = Some p
    /\ gimlet.Prev p = Some (navPage "prev" "0001-01-01T00:00:00Z")
    /\ gimlet.Next p = Some (navPage "next" "2021-01-02T00:00:00Z").
Proof.
  intros resp.
  assert (E : gimlet.Pages resp
              = Some (gimlet.mkPages (Some (navPage "prev" "0001-01-01T00:00:00Z"))
                        (Some (navPage "next" "2021-01-02T00:00:00Z"))))
    by (vm_compute; reflexivity).
  eexists. split; [exact E|].
  destruct (pages_come_in_pairs [Byte.x6c] zeroTime
              (scenario.at_ "2021-01-02T00:00:00Z") true _ E) as (_ & _ & Hp & Hn).
  split; [exact Hp|exact Hn].
Defined.

End MoreScenarios.
